(** * ESP32 I2C master driver (targets/esp32/jshardwareI2c.c)

    A shallow embedding of the Espruino ESP32 I2C driver: the status
    classifier [checkError], the teardown [I2CReset], the bus lookup
    [getI2cFromDevice], the configurator [jshI2CSetup] and the two
    transaction builders [jshI2CWrite] and [jshI2CRead].

    The C code is imperative: it reads and writes the device registry,
    calls into the ESP-IDF I2C driver and raises interpreter exceptions.
    All of that is threaded through an explicit [state] by a small state
    monad, so that each definition follows its C function line by line. *)

From Stdlib Require Import ZArith List String Lia Bool.
From stdpp Require Import base tactics numbers functions option list.
Import ListNotations.
Local Open Scope string_scope.
Local Open Scope list_scope.
Local Open Scope Z_scope.

(** ** Platform constants *)

Module Esp.

(** Status codes of the ESP-IDF ([esp_err.h]). *)
Definition esp_err_t := Z.
Definition ESP_OK : esp_err_t := 0.
Definition ESP_FAIL : esp_err_t := -1.
Definition ESP_ERR_INVALID_ARG : esp_err_t := 0x102.
Definition ESP_ERR_TIMEOUT : esp_err_t := 0x107.

(** Controller indices and modes ([driver/i2c.h]). *)
Definition I2C_NUM_0 : Z := 0.
Definition I2C_NUM_1 : Z := 1.
Definition I2C_MODE_MASTER : Z := 1.
Definition I2C_MASTER_WRITE : Z := 0.
Definition I2C_MASTER_READ : Z := 1.
Definition GPIO_PULLUP_ENABLE : Z := 1.

(** The four macros at the head of the driver file. *)
Definition ACK_CHECK_EN : Z := 0x1.
Definition ACK_CHECK_DIS : Z := 0x0.
Definition ACK_VAL : Z := 0x0.
Definition NACK_VAL : Z := 0x1.

(** Conversion to [uint8_t], the parameter type of
    [i2c_master_write_byte]. *)
Definition to_uint8 (v : Z) : Z := v mod 256.

(** Conversion to [size_t] (32 bits on the ESP32), the type of the length
    parameters of [i2c_master_write] and [i2c_master_read]. *)
Definition to_size_t (v : Z) : Z := v mod 2 ^ 32.
Definition INT_MAX : Z := 2 ^ 31 - 1.

End Esp.
Export Esp.

(** ** Data *)

(** Logical device identifiers.  Only the two I2C members of the
    [IOEventFlags] enumeration are named by the driver; every other member
    is kept apart by its tag. *)
Inductive IOEventFlags : Type :=
  | EV_I2C1
  | EV_I2C2
  | EV_DEVICE (tag : N).

#[global] Instance IOEventFlags_eq_dec : EqDecision IOEventFlags.
Proof. solve_decision. Defined.

(** [JshI2CInfo]: the fields the driver reads and writes. *)
Record JshI2CInfo : Type := mkI2CInfo {
  pinSCL : Z;
  pinSDA : Z;
  bitrate : Z
}.

(** [i2c_config_t] as filled in by [jshI2CSetup].  [clk_flags] is assigned
    on some targets only and is otherwise left as found on the stack. *)
Record i2c_config_t : Type := mkI2CConfig {
  mode : Z;
  sda_io_num : Z;
  sda_pullup_en : Z;
  scl_io_num : Z;
  scl_pullup_en : Z;
  clk_speed : Z;
  clk_flags : option Z
}.

(** One step queued on a command link.  Read steps name their destination
    as an offset into the caller's buffer. *)
Inductive cmd_step : Type :=
  | Start
  | WriteByte (data : Z) (ack_en : Z)
  | WriteBlock (data : list Z) (data_len : Z) (ack_en : Z)
  | ReadBlock (offset : Z) (data_len : Z) (ack : Z)
  | ReadByte (offset : Z) (ack : Z)
  | Stop.

Definition i2c_cmd_handle_t := list cmd_step.

(** Calls into the ESP-IDF driver that act on the hardware or on driver
    resources, in the order they are made. *)
Inductive hw_call : Type :=
  | DriverDelete (port : Z)
  | ParamConfig (port : Z) (conf : i2c_config_t)
  | DriverInstall (port md : Z)
                  (slv_rx_buf_len slv_tx_buf_len intr_alloc_flags : Z)
  | CmdLinkCreate
  | CmdBegin (port : Z) (cmd : i2c_cmd_handle_t) (ticks_to_wait : Z)
  | CmdLinkDelete.

(** Arguments of a formatted exception message. *)
Inductive fmt_arg : Type :=
  | ArgS (s : string)
  | ArgD (d : Z).

Inductive JsExceptionType : Type := JSET_ERROR.

(** A call of [jsExceptionHere]: the kind, the format and its arguments. *)
Record js_exception : Type := mkException {
  ex_type : JsExceptionType;
  ex_fmt : string;
  ex_args : list fmt_arg
}.

(** The mutable world of the driver. *)
Record state : Type := mkState {
  deviceInitialised : IOEventFlags → bool;  (* the device registry *)
  i2c_obj : Z → nat;             (* driver instances held, per controller *)
  hw_calls : list hw_call;       (* driver calls made so far *)
  exceptions : list js_exception (* exceptions raised so far *)
}.

(** ** The state monad *)

Definition M (A : Type) : Type := state → A * state.

Definition pure {A} (a : A) : M A := λ st, (a, st).
Definition bind {A B} (m : M A) (k : A → M B) : M B :=
  λ st, let '(a, st') := m st in k a st'.

Declare Scope drv_scope.
Delimit Scope drv_scope with drv.
Bind Scope drv_scope with M.
Notation "x <- m ; k" := (bind m (λ x, k))
  (at level 100, m at next level, right associativity) : drv_scope.
Notation "m >> k" := (bind m (λ _, k))
  (at level 100, k at level 200, right associativity) : drv_scope.
Local Open Scope drv_scope.

Definition exec {A} (m : M A) (st : state) : state := snd (m st).
Definition eval {A} (m : M A) (st : state) : A := fst (m st).

Definition modify (f : state → state) : M unit := λ st, (tt, f st).
Definition gets {A} (f : state → A) : M A := λ st, (f st, st).

Definition log_call (c : hw_call) : M unit :=
  modify (λ st, mkState (deviceInitialised st) (i2c_obj st)
                        (hw_calls st ++ [c]) (exceptions st)).

(** ** Collaborators outside the driver file *)

(** Modelled from the spec: the error surface of section 7, whose C function
    [jsExceptionHere(type, fmt, ...)] is not defined in the driver file.
    Errors are reported synchronously to the caller with the tag of the
    operation; each call is recorded, in order, with its format and
    arguments. *)
Definition jsExceptionHere (ty : JsExceptionType) (fmt : string)
    (args : list fmt_arg) : M unit :=
  modify (λ st, mkState (deviceInitialised st) (i2c_obj st) (hw_calls st)
                        (exceptions st ++ [mkException ty fmt args])).

(** Modelled from the spec: the Bus Registry of section 4.1, whose C
    functions [jshIsDeviceInitialised] and [jshSetDeviceInitialised] are
    used but not defined in the driver file.  It is pure state tracking:
    [isInitialized(bus)] reads the flag of the bus, [setInitialized(bus,
    bool)] updates that flag and nothing else. *)
Definition jshIsDeviceInitialised (device : IOEventFlags) : M bool :=
  gets (λ st, deviceInitialised st device).

(** Modelled from the spec: [setInitialized(bus, bool)] of the same
    registry. *)
Definition jshSetDeviceInitialised (device : IOEventFlags) (isInit : bool)
    : M unit :=
  modify (λ st, mkState (<[device := isInit]> (deviceInitialised st))
                        (i2c_obj st) (hw_calls st) (exceptions st)).

(** *** The ESP-IDF driver

    The driver object of a controller is a resource: [i2c_driver_install]
    acquires one when it answers [ESP_OK], [i2c_driver_delete] gives one
    back (and has nothing to give back on a controller without driver).
    What the calls answer is decided by the platform, not by this file;
    the answers are parameters of the model. *)

Definition i2c_driver_delete (port : Z) : M unit :=
  log_call (DriverDelete port) >>
  modify (λ st, mkState (deviceInitialised st)
                        (<[port := Nat.pred (i2c_obj st port)]> (i2c_obj st))
                        (hw_calls st) (exceptions st)).

Definition i2c_cmd_link_create : M i2c_cmd_handle_t :=
  log_call CmdLinkCreate >> pure [].

Definition i2c_cmd_link_delete (cmd : i2c_cmd_handle_t) : M unit :=
  log_call CmdLinkDelete.

(** Queueing a step touches neither the bus nor the driver; the status each
    of these calls answers is overwritten by the next assignment to [ret]
    and never read. *)
Definition i2c_master_start (cmd : i2c_cmd_handle_t) : i2c_cmd_handle_t :=
  cmd ++ [Start].
Definition i2c_master_write_byte (cmd : i2c_cmd_handle_t) (data ack_en : Z)
    : i2c_cmd_handle_t :=
  cmd ++ [WriteByte (to_uint8 data) ack_en].
Definition i2c_master_write (cmd : i2c_cmd_handle_t) (data : list Z)
    (data_len ack_en : Z) : i2c_cmd_handle_t :=
  cmd ++ [WriteBlock data (to_size_t data_len) ack_en].
Definition i2c_master_read (cmd : i2c_cmd_handle_t) (offset data_len ack : Z)
    : i2c_cmd_handle_t :=
  cmd ++ [ReadBlock offset (to_size_t data_len) ack].
Definition i2c_master_read_byte (cmd : i2c_cmd_handle_t) (offset ack : Z)
    : i2c_cmd_handle_t :=
  cmd ++ [ReadByte offset ack].
Definition i2c_master_stop (cmd : i2c_cmd_handle_t) : i2c_cmd_handle_t :=
  cmd ++ [Stop].

Section Driver.

(** Build-time configuration. *)
Variable ESPR_I2C_COUNT : Z.
Variable CONFIG_IDF_TARGET_ESP32C3_or_S3 : bool.
Variable portTICK_RATE_MS : Z.

(** The pin resolver. *)
Variable jshGetPinFunctionFromDevice : IOEventFlags → Z.
Variable jshIsPinValid : Z → bool.
Variable jshFindPinForFunction : Z → Z → Z.
Variable JSH_I2C_SCL JSH_I2C_SDA : Z.
Variable pinToESP32Pin : Z → Z.

(** What the platform answers: to a parameter block, to the installation of
    a driver, and to a submitted command link (status and the caller's
    buffer as the transfer leaves it). *)
Variable param_config_answer : Z → i2c_config_t → esp_err_t.
Variable driver_install_answer : Z → Z → esp_err_t.
Variable cmd_begin_answer :
  Z → i2c_cmd_handle_t → Z → list Z → esp_err_t * list Z.

Definition i2c_param_config (port : Z) (conf : i2c_config_t) : M esp_err_t :=
  log_call (ParamConfig port conf) >>
  pure (param_config_answer port conf).

Definition i2c_driver_install
    (port md slv_rx_buf_len slv_tx_buf_len intr_alloc_flags : Z)
    : M esp_err_t :=
  log_call (DriverInstall port md slv_rx_buf_len slv_tx_buf_len
                          intr_alloc_flags) >>
  let err := driver_install_answer port md in
  (if err =? ESP_OK
   then modify (λ st, mkState (deviceInitialised st)
                              (<[port := S (i2c_obj st port)]> (i2c_obj st))
                              (hw_calls st) (exceptions st))
   else pure tt) >>
  pure err.

Definition i2c_master_cmd_begin (port : Z) (cmd : i2c_cmd_handle_t)
    (ticks_to_wait : Z) (buf : list Z) : M (esp_err_t * list Z) :=
  log_call (CmdBegin port cmd ticks_to_wait) >>
  pure (cmd_begin_answer port cmd ticks_to_wait buf).

(** ** The driver file *)

(** [checkError]: a [switch] over the status, one exception per
    unsuccessful arm; the status is handed back unchanged. *)
Definition checkError (caller : string) (ret : esp_err_t) : M esp_err_t :=
  (if ret =? ESP_OK then pure tt
   else if ret =? ESP_ERR_INVALID_ARG then
     jsExceptionHere JSET_ERROR "%s:, Parameter error" [ArgS caller]
   else if ret =? ESP_FAIL then
     jsExceptionHere JSET_ERROR "%s: slave doesn't ACK the transfer"
                     [ArgS caller]
   else if ret =? ESP_ERR_TIMEOUT then
     jsExceptionHere JSET_ERROR
                     "%s:, Operation timeout because the bus is busy"
                     [ArgS caller]
   else
     jsExceptionHere JSET_ERROR "%s:, unknown error code %d"
                     [ArgS caller; ArgD ret]) >>
  pure ret.

(** [I2CReset]: the second block is compiled only when there are two
    buses. *)
Definition I2CReset : M unit :=
  init1 <- jshIsDeviceInitialised EV_I2C1;
  (if init1 then
     i2c_driver_delete I2C_NUM_0 >>
     jshSetDeviceInitialised EV_I2C1 false
   else pure tt) >>
  if 1 <? ESPR_I2C_COUNT then
    init2 <- jshIsDeviceInitialised EV_I2C2;
    if init2 then
      i2c_driver_delete I2C_NUM_1 >>
      jshSetDeviceInitialised EV_I2C2 false
    else pure tt
  else pure tt.

Definition getI2cFromDevice (device : IOEventFlags) : Z :=
  match device with
  | EV_I2C1 => I2C_NUM_0
  | EV_I2C2 => if 1 <? ESPR_I2C_COUNT then I2C_NUM_1 else -1
  | _ => -1
  end.

(** [jshI2CSetup]: [info] is updated in place by the pin resolution, so the
    model hands it back.  The [DEBUG]-only output is left out. *)
Definition jshI2CSetup (device : IOEventFlags) (info : JshI2CInfo)
    : M JshI2CInfo :=
  let i2c_master_port := getI2cFromDevice device in
  if i2c_master_port =? -1 then
    jsExceptionHere JSET_ERROR
      "Only I2C1 and I2C2 (if available on target) supported" [] >>
    pure info
  else
    isInit <- jshIsDeviceInitialised device;
    (if isInit then i2c_driver_delete i2c_master_port else pure tt) >>
    let funcType := jshGetPinFunctionFromDevice device in
    let info :=
      if jshIsPinValid (pinSCL info) then info
      else mkI2CInfo (jshFindPinForFunction funcType JSH_I2C_SCL)
                     (pinSDA info) (bitrate info) in
    let info :=
      if jshIsPinValid (pinSDA info) then info
      else mkI2CInfo (pinSCL info)
                     (jshFindPinForFunction funcType JSH_I2C_SDA)
                     (bitrate info) in
    let conf :=
      mkI2CConfig I2C_MODE_MASTER
                  (pinToESP32Pin (pinSDA info)) GPIO_PULLUP_ENABLE
                  (pinToESP32Pin (pinSCL info)) GPIO_PULLUP_ENABLE
                  (bitrate info)
                  (if CONFIG_IDF_TARGET_ESP32C3_or_S3 then Some 0
                   else None) in
    err <- i2c_param_config i2c_master_port conf;
    if err =? ESP_ERR_INVALID_ARG then
      jsExceptionHere JSET_ERROR "jshI2CSetup: Invalid arguments" [] >>
      pure info
    else
      err <- i2c_driver_install i2c_master_port (mode conf) 0 0 0;
      (if err =? ESP_OK then jshSetDeviceInitialised device true
       else (checkError "jshI2CSetup" err >> pure tt)) >>
      pure info.

(** [jshI2CWrite]: [address] is an [unsigned char], [nBytes] an [int],
    [data] the caller's bytes. *)
Definition jshI2CWrite (device : IOEventFlags) (address : Z) (nBytes : Z)
    (data : list Z) (sendStop : bool) : M unit :=
  let i2c_master_port := getI2cFromDevice device in
  if i2c_master_port =? -1 then
    jsExceptionHere JSET_ERROR "Only I2C1 and I2C2 supported" []
  else
    cmd <- i2c_cmd_link_create;
    let cmd := i2c_master_start cmd in
    let cmd := i2c_master_write_byte cmd
                 (Z.lor (Z.shiftl address 1) I2C_MASTER_WRITE)
                 ACK_CHECK_EN in
    let cmd := i2c_master_write cmd data nBytes ACK_CHECK_EN in
    let cmd := if sendStop then i2c_master_stop cmd else cmd in
    r <- i2c_master_cmd_begin i2c_master_port cmd
           (Z.quot 1000 portTICK_RATE_MS) data;
    i2c_cmd_link_delete cmd >>
    checkError "jshI2CWrite" (fst r) >>
    pure tt.

(** [jshI2CRead]: [data] is the caller's buffer; the model hands back the
    buffer as the call leaves it. *)
Definition jshI2CRead (device : IOEventFlags) (address : Z) (nBytes : Z)
    (data : list Z) (sendStop : bool) : M (list Z) :=
  if nBytes <=? 0 then pure data
  else
    let i2c_master_port := getI2cFromDevice device in
    if i2c_master_port =? -1 then
      jsExceptionHere JSET_ERROR "Only I2C1 and I2C2 supported" [] >>
      pure data
    else
      cmd <- i2c_cmd_link_create;
      let cmd := i2c_master_start cmd in
      let cmd := i2c_master_write_byte cmd
                   (Z.lor (Z.shiftl address 1) I2C_MASTER_READ)
                   ACK_CHECK_EN in
      let cmd := if 1 <? nBytes
                 then i2c_master_read cmd 0 (nBytes - 1) ACK_VAL
                 else cmd in
      let cmd := i2c_master_read_byte cmd (nBytes - 1) NACK_VAL in
      let cmd := if sendStop then i2c_master_stop cmd else cmd in
      r <- i2c_master_cmd_begin i2c_master_port cmd
             (Z.quot 1000 portTICK_RATE_MS) data;
      i2c_cmd_link_delete cmd >>
      checkError "jshI2CRead" (fst r) >>
      pure (snd r).

End Driver.

(** ** Observing a run *)

(** The state at process start: no bus initialised, no driver held. *)
Definition initial_state : state :=
  mkState (λ _, false) (λ _, 0%nat) [] [].

(** A bus is supported when it maps to a controller. *)
Definition supported (ESPR_I2C_COUNT : Z) (device : IOEventFlags) : Prop :=
  getI2cFromDevice ESPR_I2C_COUNT device ≠ -1.

(** The exceptions, and the driver calls, a computation adds to those
    already recorded. *)
Definition raised_by {A} (m : M A) (st : state) : list js_exception :=
  drop (length (exceptions st)) (exceptions (exec m st)).

Definition calls_by {A} (m : M A) (st : state) : list hw_call :=
  drop (length (hw_calls st)) (hw_calls (exec m st)).

(** The exception [checkError] raises for a status, if any. *)
Definition checkError_raises (caller : string) (ret : esp_err_t)
    : list js_exception :=
  raised_by (checkError caller ret) initial_state.

(** An exception carries the tag of the operation that reports it when its
    first argument is that tag. *)
Definition tagged (caller : string) (e : js_exception) : Prop :=
  ex_type e = JSET_ERROR ∧ head (ex_args e) = Some (ArgS caller).

(** *** The error taxonomy of the specification *)

(** The five members an outcome of [checkError] is reported as. *)
Inductive Taxonomy : Type :=
  | Ok
  | InvalidArgument
  | SlaveNack
  | Timeout
  | Unknown (code : Z).

(** The member an exception of [checkError] stands for, read off its
    message. *)
Definition member_of (e : js_exception) : option Taxonomy :=
  if String.eqb (ex_fmt e) "%s:, Parameter error" then Some InvalidArgument
  else if String.eqb (ex_fmt e) "%s: slave doesn't ACK the transfer"
  then Some SlaveNack
  else if String.eqb (ex_fmt e)
            "%s:, Operation timeout because the bus is busy"
  then Some Timeout
  else if String.eqb (ex_fmt e) "%s:, unknown error code %d" then
    match ex_args e with
    | [ArgS _; ArgD code] => Some (Unknown code)
    | _ => None
    end
  else None.

(** What a call surfaced to its caller: nothing raised is [Ok], one
    exception is the member it stands for. *)
Definition surfaced (raised : list js_exception) : option Taxonomy :=
  match raised with
  | [] => Some Ok
  | [e] => member_of e
  | _ => None
  end.

(** *** The steps of a transaction *)

(** The steps [jshI2CWrite] queues, in order. *)
Definition write_steps (address nBytes : Z) (data : list Z)
    (sendStop : bool) : i2c_cmd_handle_t :=
  [Start;
   WriteByte (to_uint8 (Z.lor (Z.shiftl address 1) I2C_MASTER_WRITE))
             ACK_CHECK_EN;
   WriteBlock data (to_size_t nBytes) ACK_CHECK_EN]
  ++ (if sendStop then [Stop] else []).

(** The steps [jshI2CRead] queues, in order, for [nBytes > 0]. *)
Definition read_steps (address nBytes : Z) (sendStop : bool)
    : i2c_cmd_handle_t :=
  [Start;
   WriteByte (to_uint8 (Z.lor (Z.shiftl address 1) I2C_MASTER_READ))
             ACK_CHECK_EN]
  ++ (if 1 <? nBytes
      then [ReadBlock 0 (to_size_t (nBytes - 1)) ACK_VAL] else [])
  ++ [ReadByte (nBytes - 1) NACK_VAL]
  ++ (if sendStop then [Stop] else []).

(** *** The parts of a configuration *)

Section SetupParts.

Variable ESPR_I2C_COUNT : Z.
Variable CONFIG_IDF_TARGET_ESP32C3_or_S3 : bool.
Variable jshGetPinFunctionFromDevice : IOEventFlags → Z.
Variable jshIsPinValid : Z → bool.
Variable jshFindPinForFunction : Z → Z → Z.
Variable JSH_I2C_SCL JSH_I2C_SDA : Z.
Variable pinToESP32Pin : Z → Z.

(** [info] after the two pin-resolution lines of [jshI2CSetup]. *)
Definition resolved_info (device : IOEventFlags) (info : JshI2CInfo)
    : JshI2CInfo :=
  let funcType := jshGetPinFunctionFromDevice device in
  mkI2CInfo
    (if jshIsPinValid (pinSCL info) then pinSCL info
     else jshFindPinForFunction funcType JSH_I2C_SCL)
    (if jshIsPinValid (pinSDA info) then pinSDA info
     else jshFindPinForFunction funcType JSH_I2C_SDA)
    (bitrate info).

(** The parameter block [jshI2CSetup] hands to [i2c_param_config]. *)
Definition setup_conf (device : IOEventFlags) (info : JshI2CInfo)
    : i2c_config_t :=
  let info := resolved_info device info in
  mkI2CConfig I2C_MODE_MASTER
    (pinToESP32Pin (pinSDA info)) GPIO_PULLUP_ENABLE
    (pinToESP32Pin (pinSCL info)) GPIO_PULLUP_ENABLE
    (bitrate info)
    (if CONFIG_IDF_TARGET_ESP32C3_or_S3 then Some 0 else None).

(** The driver instances held once [jshI2CSetup] has released the prior
    driver of a bus the registry reports as initialised. *)
Definition after_release (device : IOEventFlags) (st : state) : Z → nat :=
  let port := getI2cFromDevice ESPR_I2C_COUNT device in
  if deviceInitialised st device
  then <[port := Nat.pred (i2c_obj st port)]> (i2c_obj st)
  else i2c_obj st.

(** The driver calls of [jshI2CSetup] up to and including the programming
    step. *)
Definition calls_to_config (device : IOEventFlags) (info : JshI2CInfo)
    (st : state) : list hw_call :=
  let port := getI2cFromDevice ESPR_I2C_COUNT device in
  hw_calls st
  ++ (if deviceInitialised st device then [DriverDelete port] else [])
  ++ [ParamConfig port (setup_conf device info)].

(** Whether the platform lets a set-up through: the programming step does
    not answer [ESP_ERR_INVALID_ARG] and the installation answers
    [ESP_OK]. *)
Definition goes_through
    (param_config_answer : Z → i2c_config_t → esp_err_t)
    (driver_install_answer : Z → Z → esp_err_t)
    (device : IOEventFlags) (info : JshI2CInfo) : bool :=
  let port := getI2cFromDevice ESPR_I2C_COUNT device in
  negb (param_config_answer port (setup_conf device info)
        =? ESP_ERR_INVALID_ARG)
  && (driver_install_answer port I2C_MODE_MASTER =? ESP_OK).

End SetupParts.

(** *** Reading a trace of driver calls *)

(** The controller a driver call is made on, for the calls that name one. *)
Definition call_port (c : hw_call) : option Z :=
  match c with
  | DriverDelete port => Some port
  | ParamConfig port _ => Some port
  | DriverInstall port _ _ _ _ => Some port
  | CmdBegin port _ _ => Some port
  | CmdLinkCreate | CmdLinkDelete => None
  end.

Definition is_link_create (c : hw_call) : bool :=
  match c with CmdLinkCreate => true | _ => false end.
Definition is_link_delete (c : hw_call) : bool :=
  match c with CmdLinkDelete => true | _ => false end.
Definition is_submission (c : hw_call) : bool :=
  match c with CmdBegin _ _ _ => true | _ => false end.

Fixpoint count_calls (p : hw_call → bool) (calls : list hw_call) : nat :=
  match calls with
  | [] => 0
  | c :: calls => ((if p c then 1 else 0) + count_calls p calls)%nat
  end.

(** A driver call is on a supported controller when the controller it
    names, if any, is the controller of a supported bus. *)
Definition on_supported_controller (ESPR_I2C_COUNT : Z) (c : hw_call)
    : Prop :=
  match call_port c with
  | Some port =>
      ∃ device, supported ESPR_I2C_COUNT device ∧
                getI2cFromDevice ESPR_I2C_COUNT device = port
  | None => True
  end.

(** A stretch of trace is tidy when links are created, submitted and
    deleted in equal numbers and every call is on a supported controller. *)
Definition tidy (ESPR_I2C_COUNT : Z) (delta : list hw_call) : Prop :=
  count_calls is_link_create delta = count_calls is_link_delete delta ∧
  count_calls is_submission delta = count_calls is_link_create delta ∧
  Forall (on_supported_controller ESPR_I2C_COUNT) delta.

(** ** Sequences of calls *)

(** A call into the driver, with what the platform answers during it. *)
Inductive call : Type :=
  | DoSetup (param_config_answer : Z → i2c_config_t → esp_err_t)
          (driver_install_answer : Z → Z → esp_err_t)
          (device : IOEventFlags) (info : JshI2CInfo)
  | DoReset
  | DoWrite (cmd_begin_answer :
             Z → i2c_cmd_handle_t → Z → list Z → esp_err_t * list Z)
          (device : IOEventFlags) (address nBytes : Z) (data : list Z)
          (sendStop : bool)
  | DoRead (cmd_begin_answer :
            Z → i2c_cmd_handle_t → Z → list Z → esp_err_t * list Z)
         (device : IOEventFlags) (address nBytes : Z) (data : list Z)
         (sendStop : bool).

Section Calls.

Variable ESPR_I2C_COUNT : Z.
Variable CONFIG_IDF_TARGET_ESP32C3_or_S3 : bool.
Variable portTICK_RATE_MS : Z.
Variable jshGetPinFunctionFromDevice : IOEventFlags → Z.
Variable jshIsPinValid : Z → bool.
Variable jshFindPinForFunction : Z → Z → Z.
Variable JSH_I2C_SCL JSH_I2C_SDA : Z.
Variable pinToESP32Pin : Z → Z.

Definition run_call (c : call) (st : state) : state :=
  match c with
  | DoSetup param_config_answer driver_install_answer device info =>
      exec (jshI2CSetup ESPR_I2C_COUNT CONFIG_IDF_TARGET_ESP32C3_or_S3
              jshGetPinFunctionFromDevice jshIsPinValid jshFindPinForFunction
              JSH_I2C_SCL JSH_I2C_SDA pinToESP32Pin
              param_config_answer driver_install_answer device info) st
  | DoReset => exec (I2CReset ESPR_I2C_COUNT) st
  | DoWrite cmd_begin_answer device address nBytes data sendStop =>
      exec (jshI2CWrite ESPR_I2C_COUNT portTICK_RATE_MS cmd_begin_answer
              device address nBytes data sendStop) st
  | DoRead cmd_begin_answer device address nBytes data sendStop =>
      exec (jshI2CRead ESPR_I2C_COUNT portTICK_RATE_MS cmd_begin_answer
              device address nBytes data sendStop) st
  end.

Definition run_calls (cs : list call) (st : state) : state :=
  fold_left (λ st c, run_call c st) cs st.

(** Ownership stays within the registry: a supported bus holds at most
    one driver instance, and holds none unless it is marked initialised. *)
Definition owned_within_registry (st : state) : Prop :=
  ∀ device, supported ESPR_I2C_COUNT device →
    let port := getI2cFromDevice ESPR_I2C_COUNT device in
    (i2c_obj st port ≤ 1)%nat ∧
    (i2c_obj st port = 1%nat → deviceInitialised st device = true).

End Calls.

(** ** A board to run on

    An ESP32 with both controllers compiled in.  GPIO 34 to 39 are
    input-only there, and the programming step refuses them. *)
Module Esp32.

Definition I2C_COUNT : Z := 2.
Definition TICK_RATE_MS : Z := 1.
Definition SCL : Z := 1.
Definition SDA : Z := 2.

Definition pin_function (device : IOEventFlags) : Z :=
  match device with
  | EV_I2C1 => 1
  | EV_I2C2 => 2
  | EV_DEVICE _ => 0
  end.

Definition pin_valid (pin : Z) : bool := (0 <=? pin) && (pin <? 40).

Definition find_pin (funcType role : Z) : Z :=
  if role =? SCL then (if funcType =? 1 then 22 else 16)
  else (if funcType =? 1 then 21 else 17).

Definition param_config (port : Z) (conf : i2c_config_t) : esp_err_t :=
  if (34 <=? sda_io_num conf) || (34 <=? scl_io_num conf)
  then ESP_ERR_INVALID_ARG else ESP_OK.

Definition ESP_ERR_NO_MEM : esp_err_t := 0x101.
Definition install_ok (port md : Z) : esp_err_t := ESP_OK.
Definition install_no_mem (port md : Z) : esp_err_t := ESP_ERR_NO_MEM.

(** A slave that acknowledges, and leaves the buffer as it is. *)
Definition slave_acks (port : Z) (cmd : i2c_cmd_handle_t) (ticks : Z)
    (buf : list Z) : esp_err_t * list Z := (ESP_OK, buf).

(** A slave that acknowledges and sends 0xA0, 0xA1, ... *)
Definition slave_counts (port : Z) (cmd : i2c_cmd_handle_t) (ticks : Z)
    (buf : list Z) : esp_err_t * list Z :=
  (ESP_OK, imap (λ i _, 0xA0 + Z.of_nat i) buf).

Definition setup install :=
  jshI2CSetup I2C_COUNT false pin_function pin_valid find_pin SCL SDA id
              param_config install.
Definition write := jshI2CWrite I2C_COUNT TICK_RATE_MS slave_acks.
Definition read := jshI2CRead I2C_COUNT TICK_RATE_MS slave_counts.
Definition run := run_calls I2C_COUNT false TICK_RATE_MS pin_function pin_valid
                            find_pin SCL SDA id.

(** Default pins at 100 kHz, and a request that names GPIO 34 as SCL. *)
Definition default_info : JshI2CInfo := mkI2CInfo 255 255 100000.
Definition input_only_info : JshI2CInfo := mkI2CInfo 34 21 100000.

(** The first bus once it has been set up from the initial state. *)
Definition configured : state :=
  exec (setup install_ok EV_I2C1 default_info) initial_state.

End Esp32.

(** ** Running the monad *)

Lemma state_eta (st : state) :
  mkState (deviceInitialised st) (i2c_obj st) (hw_calls st) (exceptions st)
  = st.
Proof. by destruct st. Qed.

Lemma raised_by_app {A} (m : M A) (st : state) (new : list js_exception) :
  exceptions (exec m st) = exceptions st ++ new → raised_by m st = new.
Proof. intros E. unfold raised_by. rewrite E. apply drop_app_length. Qed.

Lemma calls_by_app {A} (m : M A) (st : state) (new : list hw_call) :
  hw_calls (exec m st) = hw_calls st ++ new → calls_by m st = new.
Proof. intros E. unfold calls_by. rewrite E. apply drop_app_length. Qed.

Lemma raised_by_same {A} (m : M A) (st : state) :
  exceptions (exec m st) = exceptions st → raised_by m st = [].
Proof. intros E. apply raised_by_app. by rewrite app_nil_r. Qed.

Lemma calls_by_same {A} (m : M A) (st : state) :
  hw_calls (exec m st) = hw_calls st → calls_by m st = [].
Proof. intros E. apply calls_by_app. by rewrite app_nil_r. Qed.

Ltac unfold_monad :=
  unfold exec, eval, bind, pure, modify, gets, log_call, jsExceptionHere,
    jshIsDeviceInitialised, jshSetDeviceInitialised, i2c_driver_delete,
    i2c_cmd_link_create, i2c_cmd_link_delete, i2c_param_config,
    i2c_driver_install, i2c_master_cmd_begin in *.

Lemma checkError_run (caller : string) (ret : esp_err_t) (st : state) :
  checkError caller ret st
  = (ret, mkState (deviceInitialised st) (i2c_obj st) (hw_calls st)
                  (exceptions st ++ checkError_raises caller ret)).
Proof.
  unfold checkError_raises, raised_by, checkError. unfold_monad.
  repeat match goal with
         | |- context [Z.eqb ?a ?b] => destruct (Z.eqb a b)
         end; cbn; rewrite ?app_nil_r, ?state_eta; done.
Qed.

Lemma checkError_raises_ok (caller : string) :
  checkError_raises caller ESP_OK = [].
Proof. reflexivity. Qed.

Section Classifier.

Variables (caller : string) (ret : esp_err_t) (st : state).

(** C6. [checkError] is total on the raw status codes: whatever the code,
    the call hands the code back and surfaces exactly one member of the
    taxonomy; the member is [Ok] for [ESP_OK] alone (nothing is raised),
    [InvalidArgument] for [ESP_ERR_INVALID_ARG] alone, [SlaveNack] for
    [ESP_FAIL] alone, [Timeout] for [ESP_ERR_TIMEOUT] alone, and
    [Unknown] carrying the code for every other code. *)
Theorem checkError_total :
  eval (checkError caller ret) st = ret ∧
  exists! t : Taxonomy,
    surfaced (raised_by (checkError caller ret) st) = Some t ∧
    (t = Ok ↔ ret = ESP_OK) ∧
    (t = InvalidArgument ↔ ret = ESP_ERR_INVALID_ARG) ∧
    (t = SlaveNack ↔ ret = ESP_FAIL) ∧
    (t = Timeout ↔ ret = ESP_ERR_TIMEOUT) ∧
    (t = Unknown ret ↔
       ret ≠ ESP_OK ∧ ret ≠ ESP_ERR_INVALID_ARG ∧
       ret ≠ ESP_FAIL ∧ ret ≠ ESP_ERR_TIMEOUT).
Proof.
  split; [by unfold eval; rewrite checkError_run|].
  rewrite (raised_by_app _ _ (checkError_raises caller ret))
    by (unfold exec; by rewrite checkError_run).
  unfold checkError_raises, raised_by, checkError. unfold_monad.
  unfold ESP_OK, ESP_ERR_INVALID_ARG, ESP_FAIL, ESP_ERR_TIMEOUT.
  destruct (Z.eqb_spec ret 0) as [->|H0].
  { exists Ok. split; [|by intros t [E _]; cbn in E; injection E].
    cbn. repeat split; intros; try done; lia. }
  destruct (Z.eqb_spec ret 258) as [->|H1].
  { exists InvalidArgument.
    split; [|by intros t [E _]; cbn in E; injection E].
    cbn. repeat split; intros; try done; lia. }
  destruct (Z.eqb_spec ret (-1)) as [->|H2].
  { exists SlaveNack. split; [|by intros t [E _]; cbn in E; injection E].
    cbn. repeat split; intros; try done; lia. }
  destruct (Z.eqb_spec ret 263) as [->|H3].
  { exists Timeout. split; [|by intros t [E _]; cbn in E; injection E].
    cbn. repeat split; intros; try done; lia. }
  exists (Unknown ret). split; [|by intros t [E _]; cbn in E; injection E].
  cbn. repeat split; intros; try done.
Qed.

End Classifier.


(** ** The transaction builders *)

Lemma address_byte_7bit (address rw : Z) :
  0 ≤ address < 128 → 0 ≤ rw ≤ 1 →
  to_uint8 (Z.lor (Z.shiftl address 1) rw) = 2 * address + rw.
Proof.
  intros Ha Hrw. unfold to_uint8.
  assert (Z.land (Z.shiftl address 1) rw = 0) as Hdisj.
  { assert (rw = 0 ∨ rw = 1) as [-> | ->] by lia.
    - apply Z.land_0_r.
    - change 1 with (Z.ones 1) at 2. rewrite Z.land_ones by lia.
      rewrite Z.shiftl_mul_pow2 by lia. apply Z.mod_mul. lia. }
  rewrite <- Z.lxor_lor, <- Z.add_nocarry_lxor by exact Hdisj.
  rewrite Z.shiftl_mul_pow2 by lia. change (2 ^ 1) with 2.
  rewrite Z.mod_small; lia.
Qed.

Section Transactions.

Variable ESPR_I2C_COUNT : Z.
Variable portTICK_RATE_MS : Z.
Variable cmd_begin_answer :
  Z → i2c_cmd_handle_t → Z → list Z → esp_err_t * list Z.

Local Abbreviation port_of := (getI2cFromDevice ESPR_I2C_COUNT).
Local Abbreviation write :=
  (jshI2CWrite ESPR_I2C_COUNT portTICK_RATE_MS cmd_begin_answer).
Local Abbreviation read :=
  (jshI2CRead ESPR_I2C_COUNT portTICK_RATE_MS cmd_begin_answer).
Local Abbreviation ticks := (Z.quot 1000 portTICK_RATE_MS).

Lemma jshI2CWrite_unsupported device address nBytes data sendStop st :
  port_of device = -1 →
  write device address nBytes data sendStop st
  = (tt, mkState (deviceInitialised st) (i2c_obj st) (hw_calls st)
           (exceptions st
            ++ [mkException JSET_ERROR "Only I2C1 and I2C2 supported" []])).
Proof. intros E. unfold jshI2CWrite. by rewrite E. Qed.

Lemma jshI2CWrite_run device address nBytes data sendStop st :
  port_of device ≠ -1 →
  let cmd := write_steps address nBytes data sendStop in
  write device address nBytes data sendStop st
  = (tt, mkState (deviceInitialised st) (i2c_obj st)
           (hw_calls st
            ++ [CmdLinkCreate; CmdBegin (port_of device) cmd ticks;
                CmdLinkDelete])
           (exceptions st
            ++ checkError_raises "jshI2CWrite"
                 (fst (cmd_begin_answer (port_of device) cmd ticks data)))).
Proof.
  intros Hs cmd. unfold jshI2CWrite.
  destruct (Z.eqb_spec (port_of device) (-1)) as [E|_]; [done|].
  unfold_monad. cbn. rewrite checkError_run. cbn.
  rewrite <- !app_assoc. subst cmd. unfold write_steps.
  by destruct sendStop.
Qed.

Lemma jshI2CRead_nothing device address nBytes data sendStop st :
  nBytes ≤ 0 → read device address nBytes data sendStop st = (data, st).
Proof.
  intros Hn. unfold jshI2CRead.
  by destruct (Z.leb_spec nBytes 0); [|lia].
Qed.

Lemma jshI2CRead_unsupported device address nBytes data sendStop st :
  0 < nBytes → port_of device = -1 →
  read device address nBytes data sendStop st
  = (data, mkState (deviceInitialised st) (i2c_obj st) (hw_calls st)
             (exceptions st
              ++ [mkException JSET_ERROR "Only I2C1 and I2C2 supported" []])).
Proof.
  intros Hn E. unfold jshI2CRead.
  destruct (Z.leb_spec nBytes 0); [lia|]. by rewrite E.
Qed.

Lemma jshI2CRead_run device address nBytes data sendStop st :
  0 < nBytes → port_of device ≠ -1 →
  let cmd := read_steps address nBytes sendStop in
  let answer := cmd_begin_answer (port_of device) cmd ticks data in
  read device address nBytes data sendStop st
  = (snd answer,
     mkState (deviceInitialised st) (i2c_obj st)
       (hw_calls st
        ++ [CmdLinkCreate; CmdBegin (port_of device) cmd ticks;
            CmdLinkDelete])
       (exceptions st ++ checkError_raises "jshI2CRead" (fst answer))).
Proof.
  intros Hn Hs cmd answer. unfold jshI2CRead.
  destruct (Z.leb_spec nBytes 0); [lia|].
  destruct (Z.eqb_spec (port_of device) (-1)) as [E|_]; [done|].
  unfold_monad. cbn. rewrite checkError_run. cbn.
  rewrite <- !app_assoc. subst answer cmd. unfold read_steps.
  by destruct sendStop, (1 <? nBytes).
Qed.

(** C1. On a supported bus, a read of [nBytes >= 1] bytes submits exactly
    this command sequence: Start; the address byte [address << 1 |
    I2C_MASTER_READ] (as the [uint8_t] it is passed as) with the
    acknowledgement checked; then, exactly when [nBytes > 1], one block
    read of [nBytes - 1] bytes under ACK; then always one single-byte read
    under NACK, into the last place of the buffer; then Stop exactly when
    [sendStop] is set.  The link is created before, submitted once on the
    controller of the bus, and deleted after. *)
Theorem jshI2CRead_sequence device address nBytes data sendStop st :
  supported ESPR_I2C_COUNT device →
  1 ≤ nBytes ≤ INT_MAX →
  calls_by (read device address nBytes data sendStop) st
  = [CmdLinkCreate;
     CmdBegin (port_of device)
       ([Start;
         WriteByte (to_uint8 (Z.lor (Z.shiftl address 1) I2C_MASTER_READ))
                   ACK_CHECK_EN]
        ++ (if bool_decide (1 < nBytes)
            then [ReadBlock 0 (nBytes - 1) ACK_VAL] else [])
        ++ [ReadByte (nBytes - 1) NACK_VAL]
        ++ (if sendStop then [Stop] else []))
       ticks;
     CmdLinkDelete].
Proof.
  intros Hs [Hlo Hhi]. apply calls_by_app. unfold exec.
  rewrite jshI2CRead_run by (done || lia). cbn. do 3 f_equal.
  unfold read_steps. do 3 f_equal.
  unfold INT_MAX in Hhi. case_bool_decide; destruct (Z.ltb_spec 1 nBytes);
    try lia; [|done].
  unfold to_size_t. rewrite Z.mod_small by lia. done.
Qed.

(** C2. On a supported bus, a write of the bytes [data] submits exactly
    this command sequence: Start; the address byte [address << 1 |
    I2C_MASTER_WRITE] (as the [uint8_t] it is passed as) with the
    acknowledgement checked; the block of all the bytes with the
    acknowledgement checked; then Stop exactly when [sendStop] is set. *)
Theorem jshI2CWrite_sequence device address nBytes data sendStop st :
  supported ESPR_I2C_COUNT device →
  nBytes = Z.of_nat (length data) →
  nBytes ≤ INT_MAX →
  calls_by (write device address nBytes data sendStop) st
  = [CmdLinkCreate;
     CmdBegin (port_of device)
       ([Start;
         WriteByte (to_uint8 (Z.lor (Z.shiftl address 1) I2C_MASTER_WRITE))
                   ACK_CHECK_EN;
         WriteBlock data (Z.of_nat (length data)) ACK_CHECK_EN]
        ++ (if sendStop then [Stop] else []))
       ticks;
     CmdLinkDelete].
Proof.
  intros Hs Hlen Hhi. apply calls_by_app. unfold exec.
  rewrite jshI2CWrite_run by done. cbn. do 3 f_equal.
  unfold write_steps. do 4 f_equal.
  unfold INT_MAX in Hhi. unfold to_size_t. rewrite Z.mod_small by lia.
  by rewrite Hlen.
Qed.

(** C7. A read of zero bytes is a no-op whatever the bus, the address and
    [sendStop]: the call returns with the buffer as it was (no byte
    produced), the state is unchanged, no driver call is made (no link is
    created, nothing is submitted) and no exception is raised. *)
Theorem jshI2CRead_zero_count device address data sendStop st :
  eval (read device address 0 data sendStop) st = data ∧
  exec (read device address 0 data sendStop) st = st ∧
  calls_by (read device address 0 data sendStop) st = [] ∧
  raised_by (read device address 0 data sendStop) st = [].
Proof.
  assert (read device address 0 data sendStop st = (data, st)) as E
    by (by apply jshI2CRead_nothing).
  split; [|split; [|split]].
  - unfold eval. by rewrite E.
  - unfold exec. by rewrite E.
  - apply calls_by_same. unfold exec. by rewrite E.
  - apply raised_by_same. unfold exec. by rewrite E.
Qed.

(** C10. A read of [nBytes <= 0] bytes on a bus identifier that maps to no
    controller returns normally: the count is tested before the bus is
    looked up, so no exception is raised (neither the unsupported-bus one
    nor any other), the buffer and the state are as before.  On the same
    bus a read of one byte does raise the unsupported-bus exception. *)
Theorem jshI2CRead_count_tested_first device address nBytes data sendStop st :
  nBytes ≤ 0 →
  ¬ supported ESPR_I2C_COUNT device →
  raised_by (read device address nBytes data sendStop) st = [] ∧
  eval (read device address nBytes data sendStop) st = data ∧
  exec (read device address nBytes data sendStop) st = st ∧
  raised_by (read device address 1 data sendStop) st
  = [mkException JSET_ERROR "Only I2C1 and I2C2 supported" []].
Proof.
  intros Hn Hu.
  assert (read device address nBytes data sendStop st = (data, st)) as E
    by (by apply jshI2CRead_nothing).
  split; [|split; [|split]].
  - apply raised_by_same. unfold exec. by rewrite E.
  - unfold eval. by rewrite E.
  - unfold exec. by rewrite E.
  - apply raised_by_app. unfold exec.
    rewrite jshI2CRead_unsupported; [done|lia|].
    unfold supported in Hu. by destruct (decide (port_of device = -1)).
Qed.

(** C5, as the driver has it.  On a supported bus that the registry marks
    uninitialised, a write, and a read of at least one byte, are not
    rejected: each creates a command link, submits its steps once on the
    controller of the bus and deletes the link; the only exception raised
    is the one [checkError] makes of the status of that submission (none
    for [ESP_OK]); the registry is left as it was. *)
Theorem uninitialised_bus_is_driven device address wBytes nBytes data buf
    sendStop st :
  supported ESPR_I2C_COUNT device →
  deviceInitialised st device = false →
  0 < nBytes →
  let port := port_of device in
  let wr := write device address wBytes data sendStop in
  let rd := read device address nBytes buf sendStop in
  let wsteps := write_steps address wBytes data sendStop in
  let rsteps := read_steps address nBytes sendStop in
  (calls_by wr st = [CmdLinkCreate; CmdBegin port wsteps ticks; CmdLinkDelete]
   ∧ raised_by wr st
     = checkError_raises "jshI2CWrite"
         (fst (cmd_begin_answer port wsteps ticks data))
   ∧ deviceInitialised (exec wr st) = deviceInitialised st)
  ∧
  (calls_by rd st = [CmdLinkCreate; CmdBegin port rsteps ticks; CmdLinkDelete]
   ∧ raised_by rd st
     = checkError_raises "jshI2CRead"
         (fst (cmd_begin_answer port rsteps ticks buf))
   ∧ deviceInitialised (exec rd st) = deviceInitialised st).
Proof.
  intros Hs _ Hn port wr rd wsteps rsteps. subst wr rd.
  split; (split; [|split]).
  - apply calls_by_app. unfold exec. by rewrite jshI2CWrite_run.
  - apply raised_by_app. unfold exec. by rewrite jshI2CWrite_run.
  - unfold exec. by rewrite jshI2CWrite_run.
  - apply calls_by_app. unfold exec. by rewrite jshI2CRead_run.
  - apply raised_by_app. unfold exec. by rewrite jshI2CRead_run.
  - unfold exec. by rewrite jshI2CRead_run.
Qed.

End Transactions.

(** The two read examples and the write example of the specification, on
    the board above. *)
Example read_one_byte_with_stop :
  calls_by (Esp32.read EV_I2C1 0x3C 1 [0] true) initial_state
  = [CmdLinkCreate;
     CmdBegin 0 [Start; WriteByte 0x79 1; ReadByte 0 1; Stop] 1000;
     CmdLinkDelete].
Proof. reflexivity. Qed.

Example read_five_bytes_without_stop :
  calls_by (Esp32.read EV_I2C1 0x3C 5 [0; 0; 0; 0; 0] false) initial_state
  = [CmdLinkCreate;
     CmdBegin 0 [Start; WriteByte 0x79 1; ReadBlock 0 4 0; ReadByte 4 1] 1000;
     CmdLinkDelete].
Proof. reflexivity. Qed.

Example write_two_bytes_with_stop :
  calls_by (Esp32.write EV_I2C1 0x3C 2 [0x10; 0x20] true) initial_state
  = [CmdLinkCreate;
     CmdBegin 0 [Start; WriteByte 0x78 1; WriteBlock [0x10; 0x20] 2 1; Stop]
              1000;
     CmdLinkDelete].
Proof. reflexivity. Qed.

Lemma jshI2CRead_sequence_witness :
  supported Esp32.I2C_COUNT EV_I2C1 ∧ 1 ≤ 5 ≤ INT_MAX ∧
  calls_by (Esp32.read EV_I2C1 0x3C 5 [0; 0; 0; 0; 0] false) initial_state
  = [CmdLinkCreate;
     CmdBegin 0 [Start; WriteByte 0x79 1; ReadBlock 0 4 0; ReadByte 4 1] 1000;
     CmdLinkDelete].
Proof.
  split; [by vm_compute|]. split; [by vm_compute|].
  apply (jshI2CRead_sequence Esp32.I2C_COUNT Esp32.TICK_RATE_MS
           Esp32.slave_counts EV_I2C1 0x3C 5 [0; 0; 0; 0; 0] false
           initial_state); by vm_compute.
Defined.

Lemma jshI2CWrite_sequence_witness :
  supported Esp32.I2C_COUNT EV_I2C1 ∧
  2 = Z.of_nat (length [0x10; 0x20]) ∧ 2 ≤ INT_MAX ∧
  calls_by (Esp32.write EV_I2C1 0x3C 2 [0x10; 0x20] true) initial_state
  = [CmdLinkCreate;
     CmdBegin 0 [Start; WriteByte 0x78 1; WriteBlock [0x10; 0x20] 2 1; Stop]
              1000;
     CmdLinkDelete].
Proof.
  split; [by vm_compute|]. split; [reflexivity|]. split; [by vm_compute|].
  apply (jshI2CWrite_sequence Esp32.I2C_COUNT Esp32.TICK_RATE_MS
           Esp32.slave_acks EV_I2C1 0x3C 2 [0x10; 0x20] true
           initial_state); by vm_compute.
Defined.

Lemma jshI2CRead_count_tested_first_witness :
  -3 ≤ 0 ∧ ¬ supported 1 EV_I2C2 ∧
  raised_by (jshI2CRead 1 1 Esp32.slave_counts EV_I2C2 0x3C (-3) [7; 7] true)
            initial_state = [] ∧
  eval (jshI2CRead 1 1 Esp32.slave_counts EV_I2C2 0x3C (-3) [7; 7] true)
       initial_state = [7; 7].
Proof.
  assert (-3 ≤ 0) as Hn by lia.
  assert (¬ supported 1 EV_I2C2) as Hu by (intros H; by apply H).
  split; [exact Hn|]. split; [exact Hu|].
  pose proof (jshI2CRead_count_tested_first 1 1 Esp32.slave_counts EV_I2C2
                0x3C (-3) [7; 7] true initial_state Hn Hu) as (Hr & He & _).
  split; [exact Hr | exact He].
Defined.

(** C5 as the specification words it (a transaction on an uninitialised
    bus is rejected and reaches no hardware) does not hold of the driver:
    on the first bus of the board, never set up, a write creates, submits
    and deletes a command link, and with a slave that acknowledges no
    exception is raised at all. *)
Lemma uninitialised_bus_not_rejected :
  ¬ (∀ (ESPR_I2C_COUNT portTICK_RATE_MS : Z)
       (cmd_begin_answer :
          Z → i2c_cmd_handle_t → Z → list Z → esp_err_t * list Z)
       (device : IOEventFlags) (address nBytes : Z) (data : list Z)
       (sendStop : bool) (st : state),
       supported ESPR_I2C_COUNT device →
       deviceInitialised st device = false →
       let wr := jshI2CWrite ESPR_I2C_COUNT portTICK_RATE_MS cmd_begin_answer
                             device address nBytes data sendStop in
       calls_by wr st = [] ∧ raised_by wr st ≠ []).
Proof.
  intros H.
  destruct (H Esp32.I2C_COUNT Esp32.TICK_RATE_MS Esp32.slave_acks EV_I2C1
              0x3C 2 [0x10; 0x20] true initial_state) as [Hcalls Hraised].
  - by vm_compute.
  - reflexivity.
  - by apply Hraised.
Qed.

Lemma uninitialised_bus_is_driven_witness :
  supported Esp32.I2C_COUNT EV_I2C1 ∧
  deviceInitialised initial_state EV_I2C1 = false ∧
  0 < 2 ∧
  calls_by (Esp32.write EV_I2C1 0x3C 2 [0x10; 0x20] true) initial_state
  = [CmdLinkCreate;
     CmdBegin 0 [Start; WriteByte 0x78 1; WriteBlock [0x10; 0x20] 2 1; Stop]
              1000;
     CmdLinkDelete] ∧
  calls_by (Esp32.read EV_I2C1 0x3C 2 [0; 0] true) initial_state
  = [CmdLinkCreate;
     CmdBegin 0 [Start; WriteByte 0x79 1; ReadBlock 0 1 0; ReadByte 1 1; Stop]
              1000;
     CmdLinkDelete].
Proof.
  assert (supported Esp32.I2C_COUNT EV_I2C1) as Hs by (by vm_compute).
  assert (0 < 2) as Hn by lia.
  split; [exact Hs|]. split; [reflexivity|]. split; [exact Hn|].
  pose proof (uninitialised_bus_is_driven Esp32.I2C_COUNT Esp32.TICK_RATE_MS
                Esp32.slave_acks EV_I2C1 0x3C 2 2 [0x10; 0x20] [0; 0] true
                initial_state Hs eq_refl Hn) as [(Hw & _) (Hr & _)].
  split; [exact Hw | exact Hr].
Defined.

(** ** The configurator *)

Section Configurator.

Variable ESPR_I2C_COUNT : Z.
Variable CONFIG_IDF_TARGET_ESP32C3_or_S3 : bool.
Variable jshGetPinFunctionFromDevice : IOEventFlags → Z.
Variable jshIsPinValid : Z → bool.
Variable jshFindPinForFunction : Z → Z → Z.
Variable JSH_I2C_SCL JSH_I2C_SDA : Z.
Variable pinToESP32Pin : Z → Z.
Variable param_config_answer : Z → i2c_config_t → esp_err_t.
Variable driver_install_answer : Z → Z → esp_err_t.

Local Abbreviation port_of := (getI2cFromDevice ESPR_I2C_COUNT).
Local Abbreviation setup :=
  (jshI2CSetup ESPR_I2C_COUNT CONFIG_IDF_TARGET_ESP32C3_or_S3
     jshGetPinFunctionFromDevice jshIsPinValid jshFindPinForFunction
     JSH_I2C_SCL JSH_I2C_SDA pinToESP32Pin
     param_config_answer driver_install_answer).

Local Abbreviation resolved :=
  (resolved_info jshGetPinFunctionFromDevice jshIsPinValid
     jshFindPinForFunction JSH_I2C_SCL JSH_I2C_SDA).
Local Abbreviation conf_of :=
  (setup_conf CONFIG_IDF_TARGET_ESP32C3_or_S3 jshGetPinFunctionFromDevice
     jshIsPinValid jshFindPinForFunction JSH_I2C_SCL JSH_I2C_SDA
     pinToESP32Pin).
Local Abbreviation released := (after_release ESPR_I2C_COUNT).
Local Abbreviation config_calls :=
  (calls_to_config ESPR_I2C_COUNT CONFIG_IDF_TARGET_ESP32C3_or_S3
     jshGetPinFunctionFromDevice jshIsPinValid jshFindPinForFunction
     JSH_I2C_SCL JSH_I2C_SDA pinToESP32Pin).

Lemma jshI2CSetup_rejects_run device info st :
  port_of device = -1 →
  setup device info st
  = (info,
     mkState (deviceInitialised st) (i2c_obj st) (hw_calls st)
       (exceptions st
        ++ [mkException JSET_ERROR
              "Only I2C1 and I2C2 (if available on target) supported" []])).
Proof. intros E. unfold jshI2CSetup. by rewrite E. Qed.

Lemma jshI2CSetup_run device info st :
  port_of device ≠ -1 →
  let port := port_of device in
  let conf := conf_of device info in
  let err := driver_install_answer port (mode conf) in
  setup device info st
  = (resolved device info,
     if param_config_answer port conf =? ESP_ERR_INVALID_ARG then
       mkState (deviceInitialised st) (released device st)
         (config_calls device info st)
         (exceptions st
          ++ [mkException JSET_ERROR "jshI2CSetup: Invalid arguments" []])
     else if err =? ESP_OK then
       mkState (<[device := true]> (deviceInitialised st))
         (<[port := S (released device st port)]>
            (released device st))
         (config_calls device info st ++ [DriverInstall port (mode conf) 0 0 0])
         (exceptions st)
     else
       mkState (deviceInitialised st) (released device st)
         (config_calls device info st ++ [DriverInstall port (mode conf) 0 0 0])
         (exceptions st ++ checkError_raises "jshI2CSetup" err)).
Proof.
  intros Hs port conf err. unfold jshI2CSetup.
  destruct (Z.eqb_spec (port_of device) (-1)) as [E|_]; [done|].
  assert (resolved device info
          = (let info0 := if jshIsPinValid (pinSCL info) then info
               else mkI2CInfo
                      (jshFindPinForFunction
                         (jshGetPinFunctionFromDevice device) JSH_I2C_SCL)
                      (pinSDA info) (bitrate info) in
             if jshIsPinValid (pinSDA info0) then info0
             else mkI2CInfo (pinSCL info0)
                    (jshFindPinForFunction
                       (jshGetPinFunctionFromDevice device) JSH_I2C_SDA)
                    (bitrate info0))) as Hinfo.
  { unfold resolved_info. destruct info as [scl sda rate]. cbn.
    destruct (jshIsPinValid scl); cbn; by destruct (jshIsPinValid sda). }
  cbn zeta in Hinfo. rewrite <- Hinfo. clear Hinfo.
  fold (conf_of device info). fold port. fold conf.
  subst err. change (mode conf) with I2C_MODE_MASTER.
  unfold after_release, calls_to_config. fold port. fold conf.
  unfold_monad.
  destruct (deviceInitialised st device) eqn:Hinit,
    (param_config_answer port conf =? ESP_ERR_INVALID_ARG) eqn:Hc,
    (driver_install_answer port I2C_MODE_MASTER =? ESP_OK) eqn:Hi;
    repeat (cbn -[checkError checkError_raises];
            rewrite ?Hinit, ?Hc, ?Hi, ?checkError_run);
    rewrite <- ?app_assoc, ?fn_lookup_insert; done.
Qed.

(** C8. [jshI2CSetup] on a bus identifier that maps to no controller
    raises the unsupported-bus exception and does nothing else: [info] is
    handed back as given, the registry and the held drivers are as before,
    and no driver call is made (in particular no programming step). *)
Theorem jshI2CSetup_unsupported device info st :
  ¬ supported ESPR_I2C_COUNT device →
  eval (setup device info) st = info ∧
  deviceInitialised (exec (setup device info) st) = deviceInitialised st ∧
  i2c_obj (exec (setup device info) st) = i2c_obj st ∧
  calls_by (setup device info) st = [] ∧
  raised_by (setup device info) st
  = [mkException JSET_ERROR
       "Only I2C1 and I2C2 (if available on target) supported" []].
Proof.
  intros Hu. unfold supported in Hu.
  assert (port_of device = -1) as E
    by (by destruct (decide (port_of device = -1))).
  pose proof (jshI2CSetup_rejects_run device info st E) as R.
  split; [|split; [|split; [|split]]].
  - unfold eval. by rewrite R.
  - unfold exec. by rewrite R.
  - unfold exec. by rewrite R.
  - apply calls_by_same. unfold exec. by rewrite R.
  - apply raised_by_app. unfold exec. by rewrite R.
Qed.

(** No path through [jshI2CSetup] clears a flag of the registry. *)
Lemma jshI2CSetup_keeps_set_flags device info st other :
  deviceInitialised st other = true →
  deviceInitialised (exec (setup device info) st) other = true.
Proof.
  intros Hf. destruct (decide (port_of device = -1)) as [E|Hs].
  - unfold exec. by rewrite jshI2CSetup_rejects_run.
  - unfold exec. rewrite jshI2CSetup_run by done. cbn.
    repeat case_match; cbn; try done.
    unfold insert, fn_insert. by case_decide.
Qed.

(** A reconfiguration that the programming step refuses has released the
    driver of the bus and left its flag set. *)
Lemma jshI2CSetup_refused_reconfiguration device info st :
  supported ESPR_I2C_COUNT device →
  deviceInitialised st device = true →
  param_config_answer (port_of device) (conf_of device info)
  = ESP_ERR_INVALID_ARG →
  let st' := exec (setup device info) st in
  deviceInitialised st' device = true ∧
  i2c_obj st' (port_of device) = Nat.pred (i2c_obj st (port_of device)) ∧
  calls_by (setup device info) st
  = [DriverDelete (port_of device);
     ParamConfig (port_of device) (conf_of device info)] ∧
  raised_by (setup device info) st
  = [mkException JSET_ERROR "jshI2CSetup: Invalid arguments" []].
Proof.
  intros Hs Hf Hc st'. subst st'. unfold exec.
  rewrite jshI2CSetup_run by done. rewrite Hc. cbn.
  unfold after_release, calls_to_config. rewrite Hf.
  rewrite fn_lookup_insert. split; [done|]. split; [done|]. split.
  - apply calls_by_app. unfold exec. rewrite jshI2CSetup_run by done.
    rewrite Hc. cbn. unfold calls_to_config. by rewrite Hf.
  - apply raised_by_app. unfold exec. rewrite jshI2CSetup_run by done.
    by rewrite Hc.
Qed.

End Configurator.

Lemma jshI2CSetup_unsupported_witness :
  ¬ supported Esp32.I2C_COUNT (EV_DEVICE 5) ∧
  deviceInitialised
    (exec (Esp32.setup Esp32.install_ok (EV_DEVICE 5) Esp32.default_info)
          Esp32.configured)
  = deviceInitialised Esp32.configured ∧
  calls_by (Esp32.setup Esp32.install_ok (EV_DEVICE 5) Esp32.default_info)
           Esp32.configured = [].
Proof.
  assert (¬ supported Esp32.I2C_COUNT (EV_DEVICE 5)) as Hu
    by (intros H; by apply H).
  split; [exact Hu|].
  pose proof (jshI2CSetup_unsupported Esp32.I2C_COUNT false
                Esp32.pin_function Esp32.pin_valid Esp32.find_pin
                Esp32.SCL Esp32.SDA id Esp32.param_config Esp32.install_ok
                (EV_DEVICE 5) Esp32.default_info Esp32.configured Hu)
    as (_ & Hf & _ & Hc & _).
  split; [exact Hf | exact Hc].
Defined.

(** C3, on the board: the first bus is set up, then set up again with
    GPIO 34 as SCL, which the programming step refuses with
    [ESP_ERR_INVALID_ARG].  The second call deletes the driver and raises
    the invalid-arguments exception, as the specification has it; but it
    never marks the bus uninitialised: the flag is still set when the call
    returns, over a controller that holds no driver. *)
Theorem reconfigure_refused_leaves_flag_set :
  let again := Esp32.setup Esp32.install_ok EV_I2C1 Esp32.input_only_info in
  deviceInitialised Esp32.configured EV_I2C1 = true ∧
  i2c_obj Esp32.configured I2C_NUM_0 = 1%nat ∧
  calls_by again Esp32.configured
  = [DriverDelete I2C_NUM_0;
     ParamConfig I2C_NUM_0
       (mkI2CConfig I2C_MODE_MASTER 21 GPIO_PULLUP_ENABLE
                    34 GPIO_PULLUP_ENABLE 100000 None)] ∧
  raised_by again Esp32.configured
  = [mkException JSET_ERROR "jshI2CSetup: Invalid arguments" []] ∧
  i2c_obj (exec again Esp32.configured) I2C_NUM_0 = 0%nat ∧
  deviceInitialised (exec again Esp32.configured) EV_I2C1 = true.
Proof. by vm_compute. Qed.

(** C4, on the board: after a successful set-up of the first bus, a second
    set-up that fails (at the installation for want of memory, or at the
    programming step) leaves the bus marked initialised while its
    controller holds no driver: the flag and the ownership disagree. *)
Theorem registry_flag_outlives_driver :
  let first := DoSetup Esp32.param_config Esp32.install_ok
                     EV_I2C1 Esp32.default_info in
  let no_mem := DoSetup Esp32.param_config Esp32.install_no_mem
                      EV_I2C1 Esp32.default_info in
  let refused := DoSetup Esp32.param_config Esp32.install_ok
                       EV_I2C1 Esp32.input_only_info in
  (deviceInitialised (Esp32.run [first] initial_state) EV_I2C1 = true ∧
   i2c_obj (Esp32.run [first] initial_state) I2C_NUM_0 = 1%nat) ∧
  (deviceInitialised (Esp32.run [first; no_mem] initial_state) EV_I2C1
   = true ∧
   i2c_obj (Esp32.run [first; no_mem] initial_state) I2C_NUM_0 = 0%nat) ∧
  (deviceInitialised (Esp32.run [first; refused] initial_state) EV_I2C1
   = true ∧
   i2c_obj (Esp32.run [first; refused] initial_state) I2C_NUM_0 = 0%nat).
Proof. by vm_compute. Qed.

(** ** The teardown *)

Section Teardown.

Variable ESPR_I2C_COUNT : Z.

Local Abbreviation port_of := (getI2cFromDevice ESPR_I2C_COUNT).
Local Abbreviation reset := (I2CReset ESPR_I2C_COUNT).

Lemma I2CReset_run st :
  let init1 := deviceInitialised st EV_I2C1 in
  let init2 := (1 <? ESPR_I2C_COUNT) && deviceInitialised st EV_I2C2 in
  reset st
  = (tt,
     mkState
       ((if init2 then <[EV_I2C2 := false]> else id)
          ((if init1 then <[EV_I2C1 := false]> else id)
             (deviceInitialised st)))
       ((if init2 then <[I2C_NUM_1 := Nat.pred (i2c_obj st I2C_NUM_1)]>
         else id)
          ((if init1 then <[I2C_NUM_0 := Nat.pred (i2c_obj st I2C_NUM_0)]>
            else id) (i2c_obj st)))
       (hw_calls st
        ++ (if init1 then [DriverDelete I2C_NUM_0] else [])
        ++ (if init2 then [DriverDelete I2C_NUM_1] else []))
       (exceptions st)).
Proof.
  intros init1 init2. subst init1 init2. unfold I2CReset. unfold_monad.
  destruct (deviceInitialised st EV_I2C1) eqn:H1,
    (1 <? ESPR_I2C_COUNT), (deviceInitialised st EV_I2C2) eqn:H2;
    cbn; rewrite ?H1, ?H2; cbn;
    rewrite ?fn_lookup_insert_ne, ?H2 by done; cbn;
    rewrite <- ?app_assoc, ?app_nil_r, ?state_eta; try done.
Qed.

(** C9. [I2CReset] tears down every supported bus that is marked
    initialised: the driver of its controller is deleted and its flag is
    cleared.  A supported bus that is not marked initialised is left alone:
    no driver is deleted on its controller and what the controller holds is
    as before.  Either way the bus is not marked initialised afterwards. *)
Theorem I2CReset_tears_down st device :
  supported ESPR_I2C_COUNT device →
  let port := port_of device in
  let st' := exec reset st in
  deviceInitialised st' device = false ∧
  (if deviceInitialised st device
   then (DriverDelete port ∈ calls_by reset st) ∧
        i2c_obj st' port = Nat.pred (i2c_obj st port)
   else (DriverDelete port ∉ calls_by reset st) ∧
        i2c_obj st' port = i2c_obj st port).
Proof.
  intros Hs port st'. subst port st'. unfold supported in Hs.
  erewrite (calls_by_app reset st)
    by (unfold exec; rewrite I2CReset_run; reflexivity).
  unfold exec. rewrite I2CReset_run. cbn [snd deviceInitialised i2c_obj].
  destruct device as [| |tag]; cbn [getI2cFromDevice] in *; [| |done].
  - destruct (deviceInitialised st EV_I2C1) eqn:E1,
      (1 <? ESPR_I2C_COUNT), (deviceInitialised st EV_I2C2) eqn:E2;
      cbn [andb app]; unfold insert, fn_insert, id, I2C_NUM_0, I2C_NUM_1;
      rewrite ?elem_of_cons, ?elem_of_nil; repeat case_decide;
      rewrite ?E1; intuition (congruence || lia).
  - destruct (1 <? ESPR_I2C_COUNT); [|done].
    destruct (deviceInitialised st EV_I2C1) eqn:E1,
      (deviceInitialised st EV_I2C2) eqn:E2;
      cbn [andb app]; unfold insert, fn_insert, id, I2C_NUM_0, I2C_NUM_1;
      rewrite ?elem_of_cons, ?elem_of_nil; repeat case_decide;
      rewrite ?E2; intuition (congruence || lia).
Qed.

(** X23. [I2CReset] touches the flags of the supported I2C buses only: the
    flag of any other device is as it was. *)
Lemma I2CReset_other_devices st device :
  ¬ supported ESPR_I2C_COUNT device →
  deviceInitialised (exec reset st) device = deviceInitialised st device.
Proof.
  intros Hu. unfold supported in Hu. unfold exec. rewrite I2CReset_run. cbn.
  destruct device as [| |tag]; cbn in *; [by destruct Hu| |].
  - destruct (1 <? ESPR_I2C_COUNT); [by destruct Hu|]. cbn.
    destruct (deviceInitialised st EV_I2C1); cbn; [|done].
    by rewrite fn_lookup_insert_ne.
  - destruct (deviceInitialised st EV_I2C1),
      ((1 <? ESPR_I2C_COUNT) && deviceInitialised st EV_I2C2); cbn;
      rewrite ?fn_lookup_insert_ne; done.
Qed.

End Teardown.

Lemma I2CReset_tears_down_witness :
  supported Esp32.I2C_COUNT EV_I2C1 ∧
  deviceInitialised (exec (I2CReset Esp32.I2C_COUNT) Esp32.configured) EV_I2C1
  = false ∧
  calls_by (I2CReset Esp32.I2C_COUNT) Esp32.configured = [DriverDelete 0] ∧
  i2c_obj (exec (I2CReset Esp32.I2C_COUNT) Esp32.configured) 0 = 0%nat.
Proof.
  assert (supported Esp32.I2C_COUNT EV_I2C1) as Hs by (by vm_compute).
  split; [exact Hs|].
  pose proof (I2CReset_tears_down Esp32.I2C_COUNT Esp32.configured EV_I2C1 Hs)
    as [Hf _].
  split; [exact Hf|]. split; reflexivity.
Defined.

(** ** What every sequence of calls preserves *)

Section Ownership.

Variable ESPR_I2C_COUNT : Z.
Variable CONFIG_IDF_TARGET_ESP32C3_or_S3 : bool.
Variable portTICK_RATE_MS : Z.
Variable jshGetPinFunctionFromDevice : IOEventFlags → Z.
Variable jshIsPinValid : Z → bool.
Variable jshFindPinForFunction : Z → Z → Z.
Variable JSH_I2C_SCL JSH_I2C_SDA : Z.
Variable pinToESP32Pin : Z → Z.

Local Abbreviation port_of := (getI2cFromDevice ESPR_I2C_COUNT).
Local Abbreviation step :=
  (run_call ESPR_I2C_COUNT CONFIG_IDF_TARGET_ESP32C3_or_S3 portTICK_RATE_MS
     jshGetPinFunctionFromDevice jshIsPinValid jshFindPinForFunction
     JSH_I2C_SCL JSH_I2C_SDA pinToESP32Pin).
Local Abbreviation steps :=
  (run_calls ESPR_I2C_COUNT CONFIG_IDF_TARGET_ESP32C3_or_S3 portTICK_RATE_MS
     jshGetPinFunctionFromDevice jshIsPinValid jshFindPinForFunction
     JSH_I2C_SCL JSH_I2C_SDA pinToESP32Pin).
Local Abbreviation owned := (owned_within_registry ESPR_I2C_COUNT).

Lemma port_of_inj d1 d2 :
  supported ESPR_I2C_COUNT d1 → supported ESPR_I2C_COUNT d2 →
  port_of d1 = port_of d2 → d1 = d2.
Proof.
  unfold supported.
  destruct d1, d2; cbn; destruct (1 <? ESPR_I2C_COUNT); cbn;
    unfold I2C_NUM_0, I2C_NUM_1; intros; congruence.
Qed.

Lemma owned_same_books st st' :
  deviceInitialised st' = deviceInitialised st →
  i2c_obj st' = i2c_obj st →
  owned st → owned st'.
Proof. intros Hf Ho Hinv d Hd. rewrite Hf, Ho. by apply Hinv. Qed.

Lemma owned_initial : owned initial_state.
Proof. intros d _. cbn. split; [lia|discriminate]. Qed.

Lemma owned_setup pc di device info st :
  owned st → owned (step (DoSetup pc di device info) st).
Proof.
  intros Hinv. cbn [run_call]. unfold exec.
  destruct (decide (port_of device = -1)) as [E|Hs].
  { rewrite jshI2CSetup_rejects_run by done.
    by apply (owned_same_books st). }
  rewrite jshI2CSetup_run by done. cbn [snd].
  intros d Hd. cbn zeta.
  pose proof (Hinv d Hd) as [Hle Himp].
  pose proof (Hinv device Hs) as [Hle0 Himp0]. cbn zeta in *.
  assert (d ≠ device → port_of device ≠ port_of d) as Hport
    by (intros Hne Hp; apply Hne; symmetry; by apply port_of_inj).
  unfold after_release.
  destruct (deviceInitialised st device) eqn:Hinit;
    repeat case_match; cbn [deviceInitialised i2c_obj];
    unfold insert, fn_insert; repeat case_decide; subst;
    try (exfalso; by apply Hport);
    try (split; [lia|intros; try done; apply Himp; lia]).
  all: split; [|done].
  all: destruct (i2c_obj st (port_of device)) as [|[|n]]; cbn; try lia.
  all: exfalso; cut (true = false); [discriminate|].
  all: rewrite <- Hinit; symmetry; by apply Himp0.
Qed.

Lemma owned_reset st : owned st → owned (step DoReset st).
Proof.
  intros Hinv d Hd. cbn [run_call]. cbn zeta.
  pose proof (Hinv d Hd) as [Hle Himp]. cbn zeta in *.
  unfold supported in Hd. unfold exec. rewrite I2CReset_run.
  cbn [snd deviceInitialised i2c_obj].
  destruct d as [| |tag]; cbn [getI2cFromDevice] in *; [| |done].
  - destruct (deviceInitialised st EV_I2C1) eqn:E1,
      (1 <? ESPR_I2C_COUNT), (deviceInitialised st EV_I2C2) eqn:E2;
      cbn [andb]; unfold insert, fn_insert, id, I2C_NUM_0, I2C_NUM_1 in *;
      repeat case_decide; try done; (split; [lia|]); intros Hone;
      (lia || by apply Himp).
  - destruct (1 <? ESPR_I2C_COUNT); [|done].
    destruct (deviceInitialised st EV_I2C1) eqn:E1,
      (deviceInitialised st EV_I2C2) eqn:E2;
      cbn [andb]; unfold insert, fn_insert, id, I2C_NUM_0, I2C_NUM_1 in *;
      repeat case_decide; try done; (split; [lia|]); intros Hone;
      (lia || by apply Himp).
Qed.

Lemma owned_write answer device address nBytes data sendStop st :
  owned st →
  owned (step (DoWrite answer device address nBytes data sendStop) st).
Proof.
  apply owned_same_books; cbn [run_call]; unfold exec;
    (destruct (decide (port_of device = -1));
     [by rewrite jshI2CWrite_unsupported | by rewrite jshI2CWrite_run]).
Qed.

Lemma owned_read answer device address nBytes data sendStop st :
  owned st →
  owned (step (DoRead answer device address nBytes data sendStop) st).
Proof.
  apply owned_same_books; cbn [run_call]; unfold exec;
    (destruct (Z.le_gt_cases nBytes 0);
     [by rewrite jshI2CRead_nothing|];
     destruct (decide (port_of device = -1));
     [by rewrite jshI2CRead_unsupported by lia
     | by rewrite jshI2CRead_run by (done || lia)]).
Qed.

Lemma owned_step c st : owned st → owned (step c st).
Proof.
  destruct c; auto using owned_setup, owned_reset, owned_write, owned_read.
Qed.

(** Whatever the calls and whatever the platform answers, a supported bus
    never holds more than one driver instance, and holds none unless the
    registry marks it initialised.  The converse does not hold: a failed
    reconfiguration leaves a bus marked initialised that holds none. *)
Lemma owned_after_calls cs st : owned st → owned (steps cs st).
Proof.
  revert st. induction cs as [|c cs IH]; intros st Hinv; [done|].
  cbn. apply IH. by apply owned_step.
Qed.

Corollary owned_from_start cs : owned (steps cs initial_state).
Proof. apply owned_after_calls, owned_initial. Qed.

End Ownership.

(** ** Further properties of the driver *)

(** *** The classifier *)

Lemma checkError_raises_cases (caller : string) (ret : esp_err_t) :
  (ret = ESP_OK ∧ checkError_raises caller ret = []) ∨
  (ret ≠ ESP_OK ∧
   ∃ fmt rest,
     checkError_raises caller ret
     = [mkException JSET_ERROR fmt (ArgS caller :: rest)]).
Proof.
  unfold checkError_raises, raised_by, checkError. unfold_monad.
  destruct (Z.eqb_spec ret ESP_OK) as [->|Hne]; [by left|]. right.
  split; [done|].
  destruct (ret =? ESP_ERR_INVALID_ARG), (ret =? ESP_FAIL),
    (ret =? ESP_ERR_TIMEOUT); cbn; eauto.
Qed.

Lemma checkError_raises_nil (caller : string) (ret : esp_err_t) :
  checkError_raises caller ret = [] ↔ ret = ESP_OK.
Proof.
  destruct (checkError_raises_cases caller ret)
    as [[-> E]|[Hne (fmt & rest & E)]]; rewrite E; [done|].
  split; [discriminate|done].
Qed.

Lemma checkError_raises_length (caller : string) (ret : esp_err_t) :
  (length (checkError_raises caller ret) ≤ 1)%nat.
Proof.
  destruct (checkError_raises_cases caller ret)
    as [[_ E]|[_ (fmt & rest & E)]]; rewrite E; cbn; lia.
Qed.

Lemma checkError_raises_tagged (caller : string) (ret : esp_err_t) :
  Forall (tagged caller) (checkError_raises caller ret).
Proof.
  destruct (checkError_raises_cases caller ret)
    as [[_ E]|[_ (fmt & rest & E)]]; rewrite E; [constructor|].
  by repeat constructor.
Qed.

(** X1. [checkError] does nothing but report: the registry, the held
    drivers and the driver calls are as before; it raises nothing exactly
    when the status is [ESP_OK], never more than one exception, and every
    exception it raises is an error that carries the caller's tag as its
    first argument. *)
Theorem checkError_only_reports (caller : string) (ret : esp_err_t)
    (st : state) :
  let st' := exec (checkError caller ret) st in
  deviceInitialised st' = deviceInitialised st ∧
  i2c_obj st' = i2c_obj st ∧
  hw_calls st' = hw_calls st ∧
  (raised_by (checkError caller ret) st = [] ↔ ret = ESP_OK) ∧
  (length (raised_by (checkError caller ret) st) ≤ 1)%nat ∧
  Forall (tagged caller) (raised_by (checkError caller ret) st).
Proof.
  cbn zeta.
  rewrite (raised_by_app _ _ (checkError_raises caller ret))
    by (unfold exec; by rewrite checkError_run).
  unfold exec. rewrite checkError_run. cbn [snd deviceInitialised i2c_obj
                                             hw_calls].
  split; [done|]. split; [done|]. split; [done|].
  split; [apply checkError_raises_nil|].
  split; [apply checkError_raises_length | apply checkError_raises_tagged].
Qed.

(** *** Transactions *)

Lemma lor_shiftl_rw (x rw : Z) :
  0 ≤ x → 0 ≤ rw ≤ 1 → Z.lor (Z.shiftl x 1) rw = 2 * x + rw.
Proof.
  intros Hx Hrw.
  assert (Z.land (Z.shiftl x 1) rw = 0) as Hdisj.
  { assert (rw = 0 ∨ rw = 1) as [-> | ->] by lia.
    - apply Z.land_0_r.
    - change 1 with (Z.ones 1) at 2. rewrite Z.land_ones by lia.
      rewrite Z.shiftl_mul_pow2 by lia. apply Z.mod_mul. lia. }
  rewrite <- Z.lxor_lor, <- Z.add_nocarry_lxor by exact Hdisj.
  rewrite Z.shiftl_mul_pow2 by lia. change (2 ^ 1) with 2. lia.
Qed.

Lemma address_byte_alias (address rw : Z) :
  0 ≤ address → 0 ≤ rw ≤ 1 →
  to_uint8 (Z.lor (Z.shiftl (address + 128) 1) rw)
  = to_uint8 (Z.lor (Z.shiftl address 1) rw).
Proof.
  intros Ha Hrw. rewrite !lor_shiftl_rw by lia. unfold to_uint8.
  replace (2 * (address + 128) + rw) with (2 * address + rw + 1 * 256) by lia.
  apply Z.mod_add. lia.
Qed.

Section TransactionsMore.

Variable ESPR_I2C_COUNT : Z.
Variable portTICK_RATE_MS : Z.
Variable cmd_begin_answer :
  Z → i2c_cmd_handle_t → Z → list Z → esp_err_t * list Z.

Local Abbreviation port_of := (getI2cFromDevice ESPR_I2C_COUNT).
Local Abbreviation write :=
  (jshI2CWrite ESPR_I2C_COUNT portTICK_RATE_MS cmd_begin_answer).
Local Abbreviation read :=
  (jshI2CRead ESPR_I2C_COUNT portTICK_RATE_MS cmd_begin_answer).
Local Abbreviation ticks := (Z.quot 1000 portTICK_RATE_MS).

Lemma not_supported device :
  ¬ supported ESPR_I2C_COUNT device → port_of device = -1.
Proof.
  unfold supported. intros Hu. by destruct (decide (port_of device = -1)).
Qed.

(** X2. A write on a bus identifier that maps to no controller is refused
    before anything is built: the only effect is the exception
    "Only I2C1 and I2C2 supported"; no command link is created and nothing
    is submitted, the registry and the held drivers are as before. *)
Theorem jshI2CWrite_no_controller device address nBytes data sendStop st :
  ¬ supported ESPR_I2C_COUNT device →
  let wr := write device address nBytes data sendStop in
  calls_by wr st = [] ∧
  raised_by wr st
  = [mkException JSET_ERROR "Only I2C1 and I2C2 supported" []] ∧
  deviceInitialised (exec wr st) = deviceInitialised st ∧
  i2c_obj (exec wr st) = i2c_obj st.
Proof.
  intros Hu wr. subst wr. apply not_supported in Hu.
  pose proof (jshI2CWrite_unsupported ESPR_I2C_COUNT portTICK_RATE_MS
                cmd_begin_answer device address nBytes data sendStop st Hu)
    as R.
  split; [|split; [|split]].
  - apply calls_by_same. unfold exec. by rewrite R.
  - apply raised_by_app. unfold exec. by rewrite R.
  - unfold exec. by rewrite R.
  - unfold exec. by rewrite R.
Qed.

(** X3. A read of at least one byte on a bus identifier that maps to no
    controller is refused in the same way: the buffer comes back as it was
    given, the exception "Only I2C1 and I2C2 supported" is raised, no
    command link is created and nothing is submitted. *)
Theorem jshI2CRead_no_controller device address nBytes data sendStop st :
  0 < nBytes →
  ¬ supported ESPR_I2C_COUNT device →
  let rd := read device address nBytes data sendStop in
  eval rd st = data ∧
  calls_by rd st = [] ∧
  raised_by rd st
  = [mkException JSET_ERROR "Only I2C1 and I2C2 supported" []] ∧
  deviceInitialised (exec rd st) = deviceInitialised st ∧
  i2c_obj (exec rd st) = i2c_obj st.
Proof.
  intros Hn Hu rd. subst rd. apply not_supported in Hu.
  pose proof (jshI2CRead_unsupported ESPR_I2C_COUNT portTICK_RATE_MS
                cmd_begin_answer device address nBytes data sendStop st
                Hn Hu) as R.
  split; [|split; [|split; [|split]]].
  - unfold eval. by rewrite R.
  - apply calls_by_same. unfold exec. by rewrite R.
  - apply raised_by_app. unfold exec. by rewrite R.
  - unfold exec. by rewrite R.
  - unfold exec. by rewrite R.
Qed.

(** X4. Whatever the bus, the count, the bytes and the answer of the
    platform, a write and a read leave the registry and the held drivers
    as they were, and their driver calls are either none at all or exactly
    one link created, one submission on the controller of the bus, and
    that link deleted: no transaction installs or deletes a driver,
    submits twice, or leaves its link behind. *)
Theorem transactions_touch_only_the_link device address nBytes data
    sendStop st :
  let wr := write device address nBytes data sendStop in
  let rd := read device address nBytes data sendStop in
  (deviceInitialised (exec wr st) = deviceInitialised st ∧
   i2c_obj (exec wr st) = i2c_obj st ∧
   (calls_by wr st = [] ∨
    ∃ cmd, calls_by wr st
           = [CmdLinkCreate; CmdBegin (port_of device) cmd ticks;
              CmdLinkDelete]))
  ∧
  (deviceInitialised (exec rd st) = deviceInitialised st ∧
   i2c_obj (exec rd st) = i2c_obj st ∧
   (calls_by rd st = [] ∨
    ∃ cmd, calls_by rd st
           = [CmdLinkCreate; CmdBegin (port_of device) cmd ticks;
              CmdLinkDelete])).
Proof.
  cbn zeta. split.
  - destruct (decide (port_of device = -1)) as [E|Hs].
    + pose proof (jshI2CWrite_unsupported ESPR_I2C_COUNT portTICK_RATE_MS
                    cmd_begin_answer device address nBytes data sendStop st E)
        as R.
      split; [|split]; [unfold exec; by rewrite R..|].
      left. apply calls_by_same. unfold exec. by rewrite R.
    + pose proof (jshI2CWrite_run ESPR_I2C_COUNT portTICK_RATE_MS
                    cmd_begin_answer device address nBytes data sendStop st Hs)
        as R. cbn zeta in R.
      split; [|split]; [unfold exec; by rewrite R..|].
      right. eexists. apply calls_by_app. unfold exec. by rewrite R.
  - destruct (Z.le_gt_cases nBytes 0) as [Hn|Hn].
    { pose proof (jshI2CRead_nothing ESPR_I2C_COUNT portTICK_RATE_MS
                    cmd_begin_answer device address nBytes data sendStop st Hn)
        as R.
      split; [|split]; [unfold exec; by rewrite R..|].
      left. apply calls_by_same. unfold exec. by rewrite R. }
    destruct (decide (port_of device = -1)) as [E|Hs].
    + pose proof (jshI2CRead_unsupported ESPR_I2C_COUNT portTICK_RATE_MS
                    cmd_begin_answer device address nBytes data sendStop st
                    ltac:(lia) E) as R.
      split; [|split]; [unfold exec; by rewrite R..|].
      left. apply calls_by_same. unfold exec. by rewrite R.
    + pose proof (jshI2CRead_run ESPR_I2C_COUNT portTICK_RATE_MS
                    cmd_begin_answer device address nBytes data sendStop st
                    ltac:(lia) Hs) as R. cbn zeta in R.
      split; [|split]; [unfold exec; by rewrite R..|].
      right. eexists. apply calls_by_app. unfold exec. by rewrite R.
Qed.

(** X5. On a supported bus a write reports exactly the outcome of its one
    submission: nothing is raised when, and only when, the platform
    answers [ESP_OK]; otherwise one exception is raised, tagged
    "jshI2CWrite".  The statuses of the queued steps play no part. *)
Theorem jshI2CWrite_reports_submission device address nBytes data sendStop st :
  supported ESPR_I2C_COUNT device →
  let wr := write device address nBytes data sendStop in
  let status :=
    fst (cmd_begin_answer (port_of device)
           (write_steps address nBytes data sendStop) ticks data) in
  (raised_by wr st = [] ↔ status = ESP_OK) ∧
  (length (raised_by wr st) ≤ 1)%nat ∧
  Forall (tagged "jshI2CWrite") (raised_by wr st).
Proof.
  intros Hs wr status. subst wr status.
  erewrite raised_by_app
    by (unfold exec; rewrite jshI2CWrite_run by done; reflexivity).
  split; [apply checkError_raises_nil|].
  split; [apply checkError_raises_length | apply checkError_raises_tagged].
Qed.

(** X6. On a supported bus a read of at least one byte hands back the
    buffer as the submission left it, whatever the status, and reports
    exactly the outcome of that submission: nothing is raised when, and
    only when, the platform answers [ESP_OK]; otherwise one exception is
    raised, tagged "jshI2CRead". *)
Theorem jshI2CRead_reports_submission device address nBytes data sendStop st :
  supported ESPR_I2C_COUNT device →
  0 < nBytes →
  let rd := read device address nBytes data sendStop in
  let answer :=
    cmd_begin_answer (port_of device)
      (read_steps address nBytes sendStop) ticks data in
  eval rd st = snd answer ∧
  (raised_by rd st = [] ↔ fst answer = ESP_OK) ∧
  (length (raised_by rd st) ≤ 1)%nat ∧
  Forall (tagged "jshI2CRead") (raised_by rd st).
Proof.
  intros Hs Hn rd answer. subst rd answer.
  erewrite raised_by_app
    by (unfold exec; rewrite jshI2CRead_run by done; reflexivity).
  split; [unfold eval; by rewrite jshI2CRead_run|].
  split; [apply checkError_raises_nil|].
  split; [apply checkError_raises_length | apply checkError_raises_tagged].
Qed.

(** X7. The address is shifted into a single byte, so its top bit is
    lost: a transaction to address [address + 128] is the transaction to
    the seven-bit [address], step for step and with the same outcome. *)
Theorem address_top_bit_is_dropped device address nBytes data sendStop st :
  0 ≤ address < 128 →
  write device (address + 128) nBytes data sendStop st
  = write device address nBytes data sendStop st ∧
  read device (address + 128) nBytes data sendStop st
  = read device address nBytes data sendStop st.
Proof.
  intros Ha. unfold jshI2CWrite, jshI2CRead, i2c_master_write_byte.
  rewrite !address_byte_alias by (done || lia). done.
Qed.

(** X8. For a seven-bit address the address byte is the address in the
    upper seven bits and the direction in the lowest: a write on a
    supported bus opens with [2 * address], a read of at least one byte
    with [2 * address + 1], each sent with the acknowledgement checked. *)
Theorem address_byte_carries_direction device address nBytes data sendStop st :
  supported ESPR_I2C_COUNT device →
  0 ≤ address < 128 →
  0 < nBytes →
  (∃ rest,
     calls_by (write device address nBytes data sendStop) st
     = [CmdLinkCreate;
        CmdBegin (port_of device)
          (Start :: WriteByte (2 * address) ACK_CHECK_EN :: rest) ticks;
        CmdLinkDelete]) ∧
  (∃ rest,
     calls_by (read device address nBytes data sendStop) st
     = [CmdLinkCreate;
        CmdBegin (port_of device)
          (Start :: WriteByte (2 * address + 1) ACK_CHECK_EN :: rest) ticks;
        CmdLinkDelete]).
Proof.
  intros Hs Ha Hn. split; eexists; apply calls_by_app; unfold exec.
  - rewrite jshI2CWrite_run by done. cbn [snd hw_calls]. unfold write_steps.
    rewrite address_byte_7bit by (done || (unfold I2C_MASTER_WRITE; lia)).
    unfold I2C_MASTER_WRITE. rewrite Z.add_0_r. reflexivity.
  - rewrite jshI2CRead_run by done. cbn [snd hw_calls]. unfold read_steps.
    rewrite address_byte_7bit by (done || (unfold I2C_MASTER_READ; lia)).
    reflexivity.
Qed.

(** X9. A write has no guard on its count.  A negative [nBytes] is not
    refused on a supported bus: the transaction is submitted all the same,
    and the block step carries the count as the unsigned [2 ^ 32 + nBytes]
    it converts to. *)
Theorem jshI2CWrite_negative_count device address nBytes data sendStop st :
  supported ESPR_I2C_COUNT device →
  - 2 ^ 31 ≤ nBytes < 0 →
  calls_by (write device address nBytes data sendStop) st
  = [CmdLinkCreate;
     CmdBegin (port_of device)
       ([Start;
         WriteByte (to_uint8 (Z.lor (Z.shiftl address 1) I2C_MASTER_WRITE))
                   ACK_CHECK_EN;
         WriteBlock data (2 ^ 32 + nBytes) ACK_CHECK_EN]
        ++ (if sendStop then [Stop] else []))
       ticks;
     CmdLinkDelete].
Proof.
  intros Hs Hn. apply calls_by_app. unfold exec.
  rewrite jshI2CWrite_run by done. cbn [snd hw_calls]. unfold write_steps.
  unfold to_size_t.
  replace (nBytes mod 2 ^ 32) with (2 ^ 32 + nBytes); [done|].
  apply Z.mod_unique with (q := -1); lia.
Qed.

End TransactionsMore.

Lemma jshI2CWrite_no_controller_witness :
  ¬ supported 1 EV_I2C2 ∧
  calls_by (jshI2CWrite 1 1 Esp32.slave_acks EV_I2C2 0x3C 1 [7] true)
           Esp32.configured = [].
Proof.
  assert (¬ supported 1 EV_I2C2) as Hu by (intros H; by apply H).
  split; [exact Hu|].
  exact (proj1 (jshI2CWrite_no_controller 1 1 Esp32.slave_acks EV_I2C2
                  0x3C 1 [7] true Esp32.configured Hu)).
Defined.

Lemma jshI2CRead_no_controller_witness :
  0 < 2 ∧ ¬ supported Esp32.I2C_COUNT (EV_DEVICE 3) ∧
  eval (Esp32.read (EV_DEVICE 3) 0x3C 2 [7; 7] true) initial_state = [7; 7].
Proof.
  assert (0 < 2) as Hn by lia.
  assert (¬ supported Esp32.I2C_COUNT (EV_DEVICE 3)) as Hu
    by (intros H; by apply H).
  split; [exact Hn|]. split; [exact Hu|].
  exact (proj1 (jshI2CRead_no_controller Esp32.I2C_COUNT Esp32.TICK_RATE_MS
                  Esp32.slave_counts (EV_DEVICE 3) 0x3C 2 [7; 7] true
                  initial_state Hn Hu)).
Defined.

Lemma jshI2CWrite_reports_submission_witness :
  supported Esp32.I2C_COUNT EV_I2C1 ∧
  (length (raised_by (Esp32.write EV_I2C1 0x3C 1 [7%Z] true) initial_state)
   ≤ 1)%nat.
Proof.
  assert (supported Esp32.I2C_COUNT EV_I2C1) as Hs by (by vm_compute).
  split; [exact Hs|].
  exact (proj1 (proj2 (jshI2CWrite_reports_submission Esp32.I2C_COUNT
                         Esp32.TICK_RATE_MS Esp32.slave_acks EV_I2C1 0x3C 1
                         [7] true initial_state Hs))).
Defined.

Lemma jshI2CRead_reports_submission_witness :
  supported Esp32.I2C_COUNT EV_I2C2 ∧ 0 < 3 ∧
  eval (Esp32.read EV_I2C2 0x3C 3 [0; 0; 0] true) initial_state
  = [0xA0; 0xA1; 0xA2].
Proof.
  assert (supported Esp32.I2C_COUNT EV_I2C2) as Hs by (by vm_compute).
  assert (0 < 3) as Hn by lia.
  split; [exact Hs|]. split; [exact Hn|].
  exact (proj1 (jshI2CRead_reports_submission Esp32.I2C_COUNT
                  Esp32.TICK_RATE_MS Esp32.slave_counts EV_I2C2 0x3C 3
                  [0; 0; 0] true initial_state Hs Hn)).
Defined.

Lemma address_top_bit_is_dropped_witness :
  0 ≤ 0x3C < 128 ∧
  Esp32.write EV_I2C1 (0x3C + 128) 1 [7] true initial_state
  = Esp32.write EV_I2C1 0x3C 1 [7] true initial_state.
Proof.
  assert (0 ≤ 0x3C < 128) as Ha by lia.
  split; [exact Ha|].
  exact (proj1 (address_top_bit_is_dropped Esp32.I2C_COUNT Esp32.TICK_RATE_MS
                  Esp32.slave_acks EV_I2C1 0x3C 1 [7] true initial_state Ha)).
Defined.

Lemma address_byte_carries_direction_witness :
  supported Esp32.I2C_COUNT EV_I2C1 ∧ 0 ≤ 0x3C < 128 ∧ 0 < 1 ∧
  ∃ rest,
    calls_by (Esp32.read EV_I2C1 0x3C 1 [0] false) initial_state
    = [CmdLinkCreate; CmdBegin 0 (Start :: WriteByte 0x79 1 :: rest) 1000;
       CmdLinkDelete].
Proof.
  assert (supported Esp32.I2C_COUNT EV_I2C1) as Hs by (by vm_compute).
  assert (0 ≤ 0x3C < 128) as Ha by lia.
  assert (0 < 1) as Hn by lia.
  split; [exact Hs|]. split; [exact Ha|]. split; [exact Hn|].
  exact (proj2 (address_byte_carries_direction Esp32.I2C_COUNT
                  Esp32.TICK_RATE_MS Esp32.slave_counts EV_I2C1 0x3C 1 [0]
                  false initial_state Hs Ha Hn)).
Defined.

Lemma jshI2CWrite_negative_count_witness :
  supported Esp32.I2C_COUNT EV_I2C1 ∧ - 2 ^ 31 ≤ -1 < 0 ∧
  calls_by (Esp32.write EV_I2C1 0x3C (-1) [7] false) initial_state
  = [CmdLinkCreate;
     CmdBegin 0 [Start; WriteByte 0x78 1; WriteBlock [7] 4294967295 1] 1000;
     CmdLinkDelete].
Proof.
  assert (supported Esp32.I2C_COUNT EV_I2C1) as Hs by (by vm_compute).
  assert (- 2 ^ 31 ≤ -1 < 0) as Hn by lia.
  split; [exact Hs|]. split; [exact Hn|].
  exact (jshI2CWrite_negative_count Esp32.I2C_COUNT Esp32.TICK_RATE_MS
           Esp32.slave_acks EV_I2C1 0x3C (-1) [7] false initial_state Hs Hn).
Defined.

(** *** The configurator *)

Section ConfiguratorMore.

Variable ESPR_I2C_COUNT : Z.
Variable CONFIG_IDF_TARGET_ESP32C3_or_S3 : bool.
Variable jshGetPinFunctionFromDevice : IOEventFlags → Z.
Variable jshIsPinValid : Z → bool.
Variable jshFindPinForFunction : Z → Z → Z.
Variable JSH_I2C_SCL JSH_I2C_SDA : Z.
Variable pinToESP32Pin : Z → Z.
Variable param_config_answer : Z → i2c_config_t → esp_err_t.
Variable driver_install_answer : Z → Z → esp_err_t.

Local Abbreviation port_of := (getI2cFromDevice ESPR_I2C_COUNT).
Local Abbreviation setup :=
  (jshI2CSetup ESPR_I2C_COUNT CONFIG_IDF_TARGET_ESP32C3_or_S3
     jshGetPinFunctionFromDevice jshIsPinValid jshFindPinForFunction
     JSH_I2C_SCL JSH_I2C_SDA pinToESP32Pin
     param_config_answer driver_install_answer).
Local Abbreviation conf_of :=
  (setup_conf CONFIG_IDF_TARGET_ESP32C3_or_S3 jshGetPinFunctionFromDevice
     jshIsPinValid jshFindPinForFunction JSH_I2C_SCL JSH_I2C_SDA
     pinToESP32Pin).
Local Abbreviation passes :=
  (goes_through ESPR_I2C_COUNT CONFIG_IDF_TARGET_ESP32C3_or_S3
     jshGetPinFunctionFromDevice jshIsPinValid jshFindPinForFunction
     JSH_I2C_SCL JSH_I2C_SDA pinToESP32Pin
     param_config_answer driver_install_answer).
Local Abbreviation run_lemma :=
  (jshI2CSetup_run ESPR_I2C_COUNT CONFIG_IDF_TARGET_ESP32C3_or_S3
     jshGetPinFunctionFromDevice jshIsPinValid jshFindPinForFunction
     JSH_I2C_SCL JSH_I2C_SDA pinToESP32Pin
     param_config_answer driver_install_answer).

(** X10. On a supported bus [jshI2CSetup] raises nothing exactly when the
    set-up goes through, and one exception otherwise; the bus is marked
    initialised afterwards exactly when it was marked before or the set-up
    went through.  A set-up can set the flag but never clears it. *)
Theorem jshI2CSetup_flag_and_report device info st :
  supported ESPR_I2C_COUNT device →
  let st' := exec (setup device info) st in
  deviceInitialised st' device
  = deviceInitialised st device || passes device info ∧
  (raised_by (setup device info) st = [] ↔ passes device info = true) ∧
  (length (raised_by (setup device info) st) ≤ 1)%nat.
Proof.
  intros Hs st'. subst st'. unfold goes_through, raised_by, exec.
  rewrite run_lemma by done. cbn [snd]. cbn zeta.
  change (mode (conf_of device info)) with I2C_MODE_MASTER.
  destruct (param_config_answer (port_of device) (conf_of device info)
            =? ESP_ERR_INVALID_ARG); cbn [negb andb];
    [|destruct (Z.eqb_spec
                  (driver_install_answer (port_of device) I2C_MODE_MASTER)
                  ESP_OK) as [E|E]];
    cbn [deviceInitialised exceptions]; rewrite ?drop_app_length,
      ?fn_lookup_insert, ?orb_true_r, ?orb_false_r, ?drop_ge by lia.
  - split; [done|]. split; [split; discriminate | cbn; lia].
  - split; [done|]. split; [done | cbn; lia].
  - split; [done|]. rewrite checkError_raises_nil.
    split; [split; [done | discriminate] | apply checkError_raises_length].
Qed.




(** X14. A set-up of one bus leaves the other bus alone: the flag of the
    other supported bus is as before, and so are the drivers held by its
    controller. *)
Theorem jshI2CSetup_other_bus_untouched device info st other :
  supported ESPR_I2C_COUNT device →
  supported ESPR_I2C_COUNT other →
  other ≠ device →
  let st' := exec (setup device info) st in
  deviceInitialised st' other = deviceInitialised st other ∧
  i2c_obj st' (port_of other) = i2c_obj st (port_of other).
Proof.
  intros Hs Ho Hne st'. subst st'.
  assert (port_of device ≠ port_of other) as Hport
    by (intros Hp; apply Hne; symmetry; by apply (port_of_inj ESPR_I2C_COUNT)).
  unfold exec. rewrite run_lemma by done. cbn [snd]. cbn zeta.
  unfold after_release.
  destruct (deviceInitialised st device),
    (param_config_answer (port_of device) (conf_of device info)
     =? ESP_ERR_INVALID_ARG),
    (driver_install_answer (port_of device) (mode (conf_of device info))
     =? ESP_OK);
    cbn [deviceInitialised i2c_obj];
    rewrite ?fn_lookup_insert_ne by done; done.
Qed.

End ConfiguratorMore.

Lemma jshI2CSetup_flag_and_report_witness :
  supported Esp32.I2C_COUNT EV_I2C1 ∧
  deviceInitialised
    (exec (Esp32.setup Esp32.install_no_mem EV_I2C1 Esp32.default_info)
          initial_state) EV_I2C1 = false.
Proof.
  assert (supported Esp32.I2C_COUNT EV_I2C1) as Hs by (by vm_compute).
  split; [exact Hs|].
  exact (proj1 (jshI2CSetup_flag_and_report Esp32.I2C_COUNT false
                  Esp32.pin_function Esp32.pin_valid Esp32.find_pin
                  Esp32.SCL Esp32.SDA id Esp32.param_config
                  Esp32.install_no_mem EV_I2C1 Esp32.default_info
                  initial_state Hs)).
Defined.




Example setup_resolves_the_missing_pin :
  eval (Esp32.setup Esp32.install_ok EV_I2C2 (mkI2CInfo 255 4 400000))
       initial_state
  = mkI2CInfo 16 4 400000.
Proof. reflexivity. Qed.

Lemma jshI2CSetup_other_bus_untouched_witness :
  supported Esp32.I2C_COUNT EV_I2C2 ∧ supported Esp32.I2C_COUNT EV_I2C1 ∧
  EV_I2C1 ≠ EV_I2C2 ∧
  deviceInitialised
    (exec (Esp32.setup Esp32.install_ok EV_I2C2 Esp32.default_info)
          Esp32.configured) EV_I2C1 = true.
Proof.
  assert (supported Esp32.I2C_COUNT EV_I2C2) as Hs by (by vm_compute).
  assert (supported Esp32.I2C_COUNT EV_I2C1) as Ho by (by vm_compute).
  assert (EV_I2C1 ≠ EV_I2C2) as Hne by discriminate.
  split; [exact Hs|]. split; [exact Ho|]. split; [exact Hne|].
  exact (proj1 (jshI2CSetup_other_bus_untouched Esp32.I2C_COUNT false
                  Esp32.pin_function Esp32.pin_valid Esp32.find_pin
                  Esp32.SCL Esp32.SDA id Esp32.param_config Esp32.install_ok
                  EV_I2C2 Esp32.default_info Esp32.configured EV_I2C1
                  Hs Ho Hne)).
Defined.

(** *** The bus lookup and the teardown *)

Section TeardownMore.

Variable ESPR_I2C_COUNT : Z.

Local Abbreviation port_of := (getI2cFromDevice ESPR_I2C_COUNT).
Local Abbreviation reset := (I2CReset ESPR_I2C_COUNT).


Lemma I2CReset_clears st device :
  supported ESPR_I2C_COUNT device →
  deviceInitialised (exec reset st) device = false.
Proof.
  unfold supported. intros Hs. unfold exec. rewrite I2CReset_run.
  cbn [snd deviceInitialised].
  destruct device as [| |tag]; cbn [getI2cFromDevice] in *; [| |done].
  - destruct (deviceInitialised st EV_I2C1) eqn:E1,
      ((1 <? ESPR_I2C_COUNT) && deviceInitialised st EV_I2C2);
      unfold insert, fn_insert, id; repeat case_decide; done.
  - destruct (1 <? ESPR_I2C_COUNT); [|done].
    destruct (deviceInitialised st EV_I2C1),
      (deviceInitialised st EV_I2C2) eqn:E2; cbn [andb];
      unfold insert, fn_insert, id; repeat case_decide; done.
Qed.

(** X16. [I2CReset] is idempotent: a second reset right after the first
    finds nothing to tear down, makes no driver call and leaves the state
    exactly as the first reset left it. *)
Theorem I2CReset_idempotent st :
  calls_by reset (exec reset st) = [] ∧
  exec reset (exec reset st) = exec reset st.
Proof.
  assert (exec reset (exec reset st) = exec reset st) as E.
  { unfold exec at 1. rewrite I2CReset_run. cbn [snd]. cbn zeta.
    rewrite (I2CReset_clears st EV_I2C1) by done.
    assert ((1 <? ESPR_I2C_COUNT)
            && deviceInitialised (exec reset st) EV_I2C2 = false) as ->.
    { destruct (1 <? ESPR_I2C_COUNT) eqn:Hc; [|done]. cbn [andb].
      apply I2CReset_clears. unfold supported. cbn. by rewrite Hc. }
    cbn [app]. rewrite app_nil_r. unfold id. apply state_eta. }
  split; [|exact E]. apply calls_by_same. by rewrite E.
Qed.

(** X17. [I2CReset] never raises an exception, and the only driver calls
    it makes are deletions on the two controllers, at most one each; it
    neither programs nor installs a driver nor submits anything. *)
Theorem I2CReset_only_deletes st :
  raised_by reset st = [] ∧
  Forall (λ c, c = DriverDelete I2C_NUM_0 ∨ c = DriverDelete I2C_NUM_1)
         (calls_by reset st) ∧
  NoDup (calls_by reset st).
Proof.
  erewrite (calls_by_app reset st)
    by (unfold exec; rewrite I2CReset_run; reflexivity).
  split.
  { apply raised_by_same. unfold exec. by rewrite I2CReset_run. }
  destruct (deviceInitialised st EV_I2C1),
    ((1 <? ESPR_I2C_COUNT) && deviceInitialised st EV_I2C2); cbn [app];
    split; repeat constructor; auto; rewrite ?elem_of_cons, ?elem_of_nil;
    unfold I2C_NUM_0, I2C_NUM_1; intuition congruence.
Qed.

End TeardownMore.


Lemma I2CReset_other_devices_witness :
  ¬ supported Esp32.I2C_COUNT (EV_DEVICE 4) ∧
  deviceInitialised
    (exec (I2CReset Esp32.I2C_COUNT)
          (mkState (λ _, true) (λ _, 1%nat) [] [])) (EV_DEVICE 4) = true.
Proof.
  assert (¬ supported Esp32.I2C_COUNT (EV_DEVICE 4)) as Hu
    by (intros H; by apply H).
  split; [exact Hu|].
  exact (I2CReset_other_devices Esp32.I2C_COUNT
           (mkState (λ _, true) (λ _, 1%nat) [] []) (EV_DEVICE 4) Hu).
Defined.

(** *** Sequences of calls *)

Lemma count_calls_app (p : hw_call → bool) (l1 l2 : list hw_call) :
  count_calls p (l1 ++ l2) = (count_calls p l1 + count_calls p l2)%nat.
Proof. induction l1 as [|c l1 IH]; cbn; [done|]. rewrite IH. lia. Qed.

Section OwnershipMore.

Variable ESPR_I2C_COUNT : Z.
Variable CONFIG_IDF_TARGET_ESP32C3_or_S3 : bool.
Variable portTICK_RATE_MS : Z.
Variable jshGetPinFunctionFromDevice : IOEventFlags → Z.
Variable jshIsPinValid : Z → bool.
Variable jshFindPinForFunction : Z → Z → Z.
Variable JSH_I2C_SCL JSH_I2C_SDA : Z.
Variable pinToESP32Pin : Z → Z.

Local Abbreviation port_of := (getI2cFromDevice ESPR_I2C_COUNT).
Local Abbreviation step :=
  (run_call ESPR_I2C_COUNT CONFIG_IDF_TARGET_ESP32C3_or_S3 portTICK_RATE_MS
     jshGetPinFunctionFromDevice jshIsPinValid jshFindPinForFunction
     JSH_I2C_SCL JSH_I2C_SDA pinToESP32Pin).
Local Abbreviation steps :=
  (run_calls ESPR_I2C_COUNT CONFIG_IDF_TARGET_ESP32C3_or_S3 portTICK_RATE_MS
     jshGetPinFunctionFromDevice jshIsPinValid jshFindPinForFunction
     JSH_I2C_SCL JSH_I2C_SDA pinToESP32Pin).
Local Abbreviation owned := (owned_within_registry ESPR_I2C_COUNT).
Local Abbreviation neat := (tidy ESPR_I2C_COUNT).
Local Abbreviation passes :=
  (goes_through ESPR_I2C_COUNT CONFIG_IDF_TARGET_ESP32C3_or_S3
     jshGetPinFunctionFromDevice jshIsPinValid jshFindPinForFunction
     JSH_I2C_SCL JSH_I2C_SDA pinToESP32Pin).

Lemma owned_reachable cs : owned (steps cs initial_state).
Proof.
  apply (owned_after_calls ESPR_I2C_COUNT), owned_initial.
Qed.

Lemma steps_snoc cs c st : steps (cs ++ [c]) st = step c (steps cs st).
Proof. unfold run_calls. by rewrite fold_left_app. Qed.

Lemma owned_bound st device :
  owned st → supported ESPR_I2C_COUNT device →
  (i2c_obj st (port_of device)
   ≤ (if deviceInitialised st device then 1 else 0))%nat.
Proof.
  intros Hinv Hs. destruct (Hinv device Hs) as [Hle Himp]. cbn zeta in *.
  destruct (deviceInitialised st device); [done|].
  destruct (i2c_obj st (port_of device)) as [|[|n]]; [lia| |lia].
  by specialize (Himp eq_refl).
Qed.

(** X18. Whatever calls are made from the start and whatever the platform
    answers, a supported bus never holds two driver instances, and holds
    none while the registry does not mark it initialised: a set-up never
    installs over a driver it has not deleted. *)
Theorem never_two_drivers cs device :
  supported ESPR_I2C_COUNT device →
  let st := steps cs initial_state in
  (i2c_obj st (port_of device)
   ≤ (if deviceInitialised st device then 1 else 0))%nat.
Proof.
  intros Hs st. apply owned_bound; [apply owned_reachable | done].
Qed.

(** X19. [I2CReset] brings the registry and the controllers back into
    step: after any sequence of calls followed by a reset, every supported
    bus is unmarked and its controller holds no driver, also when a failed
    reconfiguration had left the bus marked over an empty controller. *)
Theorem reset_restores_agreement cs device :
  supported ESPR_I2C_COUNT device →
  let st := steps (cs ++ [DoReset]) initial_state in
  deviceInitialised st device = false ∧
  i2c_obj st (port_of device) = 0%nat.
Proof.
  intros Hs st.
  assert (deviceInitialised st device = false) as Hf.
  { subst st. rewrite steps_snoc. cbn [run_call].
    by apply I2CReset_clears. }
  split; [exact Hf|].
  pose proof (owned_bound st device (owned_reachable _) Hs) as Hle.
  rewrite Hf in Hle. lia.
Qed.

(** X20. A set-up that goes through always ends with the registry and the
    controller in step, whatever happened before: the bus is marked
    initialised and its controller holds exactly one driver, also on a
    bus set up before (the old driver is deleted first) and after failed
    attempts. *)
Theorem setup_through_holds_one_driver cs pc di device info :
  supported ESPR_I2C_COUNT device →
  passes pc di device info = true →
  let st := steps (cs ++ [DoSetup pc di device info]) initial_state in
  deviceInitialised st device = true ∧
  i2c_obj st (port_of device) = 1%nat.
Proof.
  intros Hs Hok st. subst st. rewrite steps_snoc. cbn [run_call].
  pose proof (owned_bound _ device (owned_reachable cs) Hs) as Hle.
  unfold goes_through in Hok. cbn zeta in Hok.
  apply andb_true_iff in Hok as [Hc Hi]. apply negb_true_iff in Hc.
  unfold exec. rewrite jshI2CSetup_run by done. cbn [snd]. cbn zeta.
  change (mode (setup_conf _ _ _ _ _ _ _ device info))
    with I2C_MODE_MASTER.
  rewrite Hc, Hi. cbn [deviceInitialised i2c_obj].
  rewrite !fn_lookup_insert. split; [done|]. f_equal.
  unfold after_release. cbn zeta.
  destruct (deviceInitialised (steps cs initial_state) device).
  - rewrite fn_lookup_insert. lia.
  - lia.
Qed.

Lemma tidy_nil : neat [].
Proof. by repeat split. Qed.

Lemma tidy_app d1 d2 : neat d1 → neat d2 → neat (d1 ++ d2).
Proof.
  intros (H1 & H2 & H3) (K1 & K2 & K3). unfold tidy.
  rewrite !count_calls_app, Forall_app. repeat split; (lia || done).
Qed.

Lemma tidy_transaction device cmd t :
  port_of device ≠ -1 →
  neat [CmdLinkCreate; CmdBegin (port_of device) cmd t; CmdLinkDelete].
Proof.
  intros Hs. split; [done|]. split; [done|].
  repeat constructor. by exists device.
Qed.

Lemma tidy_driver_calls device (l : list hw_call) :
  port_of device ≠ -1 →
  Forall (λ c, is_link_create c = false ∧ is_link_delete c = false ∧
               is_submission c = false ∧
               call_port c = Some (port_of device)) l →
  neat l.
Proof.
  intros Hs Hl. induction Hl as [|c l (H1 & H2 & H3 & H4) Hl IH].
  - apply tidy_nil.
  - destruct IH as (K1 & K2 & K3). unfold tidy. cbn [count_calls].
    rewrite H1, H2, H3. repeat split; [lia..|].
    constructor; [|done]. unfold on_supported_controller. rewrite H4.
    by exists device.
Qed.

Lemma step_adds_tidy c st :
  ∃ delta, hw_calls (step c st) = hw_calls st ++ delta ∧ neat delta.
Proof.
  destruct c as [pc di device info| |answer device address nBytes data sendStop
                 |answer device address nBytes data sendStop];
    cbn [run_call]; unfold exec.
  - destruct (decide (port_of device = -1)) as [E|Hs].
    { exists []. rewrite jshI2CSetup_rejects_run by done.
      cbn. by rewrite app_nil_r. }
    rewrite jshI2CSetup_run by done. cbn [snd]. cbn zeta.
    unfold calls_to_config. cbn zeta.
    repeat match goal with
           | |- context [if ?b then _ else _] => destruct b
           end; cbn [hw_calls];
      rewrite <- ?app_assoc; (eexists; split; [reflexivity|]);
      apply (tidy_driver_calls device); try done;
      cbn [app]; repeat constructor.
  - rewrite I2CReset_run. cbn [snd hw_calls]. eexists. split; [done|].
    apply tidy_app.
    + destruct (deviceInitialised st EV_I2C1); [|apply tidy_nil].
      apply (tidy_driver_calls EV_I2C1); [done|]. by repeat constructor.
    + destruct (1 <? ESPR_I2C_COUNT) eqn:Hc; [|apply tidy_nil]. cbn [andb].
      destruct (deviceInitialised st EV_I2C2); [|apply tidy_nil].
      apply (tidy_driver_calls EV_I2C2); [cbn; by rewrite Hc|].
      repeat constructor. cbn. by rewrite Hc.
  - destruct (decide (port_of device = -1)) as [E|Hs].
    { exists []. rewrite jshI2CWrite_unsupported by done.
      cbn. rewrite app_nil_r. split; [done | apply tidy_nil]. }
    rewrite jshI2CWrite_run by done. cbn [snd hw_calls].
    eexists. split; [done|]. by apply tidy_transaction.
  - destruct (Z.le_gt_cases nBytes 0) as [Hn|Hn].
    { exists []. rewrite jshI2CRead_nothing by done.
      cbn. rewrite app_nil_r. split; [done | apply tidy_nil]. }
    destruct (decide (port_of device = -1)) as [E|Hs].
    { exists []. rewrite jshI2CRead_unsupported by (done || lia).
      cbn. rewrite app_nil_r. split; [done | apply tidy_nil]. }
    rewrite jshI2CRead_run by (done || lia). cbn [snd hw_calls].
    eexists. split; [done|]. by apply tidy_transaction.
Qed.

Lemma steps_tidy cs st : neat (hw_calls st) → neat (hw_calls (steps cs st)).
Proof.
  revert st. induction cs as [|c cs IH]; intros st Ht; [done|].
  cbn. apply IH. destruct (step_adds_tidy c st) as (delta & -> & Hd).
  by apply tidy_app.
Qed.


(** X22. The driver only ever drives controllers of supported buses: in
    the trace of any sequence of calls from the start, every call that
    names a controller names the controller of a supported bus.  A bus
    identifier that maps to no controller never reaches the platform. *)
Theorem only_supported_controllers cs :
  Forall (on_supported_controller ESPR_I2C_COUNT)
         (hw_calls (steps cs initial_state)).
Proof.
  by destruct (steps_tidy cs initial_state tidy_nil) as (_ & _ & H).
Qed.

End OwnershipMore.

Lemma never_two_drivers_witness :
  supported Esp32.I2C_COUNT EV_I2C1 ∧
  (i2c_obj
     (Esp32.run
        [DoSetup Esp32.param_config Esp32.install_ok EV_I2C1
                 Esp32.default_info;
         DoSetup Esp32.param_config Esp32.install_ok EV_I2C1
                 Esp32.default_info]
        initial_state) 0 ≤ 1)%nat.
Proof.
  assert (supported Esp32.I2C_COUNT EV_I2C1) as Hs by (by vm_compute).
  split; [exact Hs|].
  exact (never_two_drivers Esp32.I2C_COUNT false Esp32.TICK_RATE_MS
           Esp32.pin_function Esp32.pin_valid Esp32.find_pin Esp32.SCL
           Esp32.SDA id
           [DoSetup Esp32.param_config Esp32.install_ok EV_I2C1
                    Esp32.default_info;
            DoSetup Esp32.param_config Esp32.install_ok EV_I2C1
                    Esp32.default_info]
           EV_I2C1 Hs).
Defined.

Lemma reset_restores_agreement_witness :
  supported Esp32.I2C_COUNT EV_I2C1 ∧
  deviceInitialised
    (Esp32.run
       ([DoSetup Esp32.param_config Esp32.install_ok EV_I2C1
                 Esp32.default_info;
         DoSetup Esp32.param_config Esp32.install_ok EV_I2C1
                 Esp32.input_only_info] ++ [DoReset])
       initial_state) EV_I2C1 = false.
Proof.
  assert (supported Esp32.I2C_COUNT EV_I2C1) as Hs by (by vm_compute).
  split; [exact Hs|].
  exact (proj1 (reset_restores_agreement Esp32.I2C_COUNT false
                  Esp32.TICK_RATE_MS Esp32.pin_function Esp32.pin_valid
                  Esp32.find_pin Esp32.SCL Esp32.SDA id
                  [DoSetup Esp32.param_config Esp32.install_ok EV_I2C1
                           Esp32.default_info;
                   DoSetup Esp32.param_config Esp32.install_ok EV_I2C1
                           Esp32.input_only_info]
                  EV_I2C1 Hs)).
Defined.

Lemma setup_through_holds_one_driver_witness :
  supported Esp32.I2C_COUNT EV_I2C1 ∧
  goes_through Esp32.I2C_COUNT false Esp32.pin_function Esp32.pin_valid
    Esp32.find_pin Esp32.SCL Esp32.SDA id Esp32.param_config
    Esp32.install_ok EV_I2C1 Esp32.default_info = true ∧
  i2c_obj
    (Esp32.run
       ([DoSetup Esp32.param_config Esp32.install_ok EV_I2C1
                 Esp32.default_info;
         DoSetup Esp32.param_config Esp32.install_no_mem EV_I2C1
                 Esp32.default_info]
        ++ [DoSetup Esp32.param_config Esp32.install_ok EV_I2C1
                    Esp32.default_info])
       initial_state) 0 = 1%nat.
Proof.
  assert (supported Esp32.I2C_COUNT EV_I2C1) as Hs by (by vm_compute).
  split; [exact Hs|]. split; [reflexivity|].
  exact (proj2 (setup_through_holds_one_driver Esp32.I2C_COUNT false
                  Esp32.TICK_RATE_MS Esp32.pin_function Esp32.pin_valid
                  Esp32.find_pin Esp32.SCL Esp32.SDA id
                  [DoSetup Esp32.param_config Esp32.install_ok EV_I2C1
                           Esp32.default_info;
                   DoSetup Esp32.param_config Esp32.install_no_mem EV_I2C1
                           Esp32.default_info]
                  Esp32.param_config Esp32.install_ok EV_I2C1
                  Esp32.default_info Hs eq_refl)).
Defined.
